(** * federated-types: the declaration publisher of [cli.js]

    A shallow embedding of the command line script [src/cli.js] and the
    properties of its five stages: manifest locator, output resolver,
    declaration emitter, identifier rewriter and publisher.

    JavaScript strings are modelled by [string]; every [ascii] stands for
    one code unit, so the texts covered are those whose code units are
    below 256.  The file system is seen in two ways, as the script itself
    sees it: a directory tree for [fs.readdirSync]/[fs.statSync] (the
    manifest search) and a finite map from absolute paths to contents for
    the files that are read, written, copied and deleted. *)

From Stdlib Require Import String Ascii List Bool Arith Lia.
From stdpp Require Import gmap strings list fin_maps pretty.

Import ListNotations.
Open Scope string_scope.

(** ** JavaScript string primitives *)

Module JsString.

(** [s.startsWith(p)] *)
Definition startsWith (s p : string) : bool := String.prefix p s.

(** [s.endsWith(suf)]: compares the last [length suf] code units. *)
Definition endsWith (s suf : string) : bool :=
  if Nat.leb (String.length suf) (String.length s)
  then String.eqb
         (substring (String.length s - String.length suf) (String.length suf) s)
         suf
  else false.

(** [s.includes(sub)]: some suffix of [s] starts with [sub]. *)
Fixpoint includes (s sub : string) : bool :=
  String.prefix sub s ||
  match s with
  | EmptyString => false
  | String _ s' => includes s' sub
  end.

(** [s.split(sep)] for a one character separator. *)
Fixpoint split (sep : ascii) (s : string) : list string :=
  match s with
  | EmptyString => [EmptyString]
  | String c s' =>
      if Ascii.eqb c sep then EmptyString :: split sep s'
      else match split sep s' with
           | [] => [String c EmptyString]
           | seg :: segs => String c seg :: segs
           end
  end.

(** [parts.join(sep)] *)
Fixpoint join (sep : string) (parts : list string) : string :=
  match parts with
  | [] => EmptyString
  | [p] => p
  | p :: ps => p ++ sep ++ join sep ps
  end.

(** [s.slice(n)] *)
Fixpoint drop (n : nat) (s : string) : string :=
  match n, s with
  | O, _ => s
  | S _, EmptyString => EmptyString
  | S n', String _ s' => drop n' s'
  end.

(** Truthiness of a string: only the empty string is falsy. *)
Definition truthy (s : string) : bool :=
  match s with EmptyString => false | _ => true end.

End JsString.

(** ** Regular expressions used by the script

    Two shapes of regular expression occur.  The fixed one, [moduleRegex]
    (the words declare module, a double quote, a greedy group of any
    characters and a closing double quote, with the global flag), is
    modelled exactly.  The other one is built at run time from a module
    identifier put between double quotes; its source is modelled for the
    patterns made of ordinary characters and the wild card [.]; the
    remaining patterns are left to the host (see [Section Script]). *)

Module Regex.

(** The double quote character. *)
Definition dq : ascii := "034"%char.

(** [s] between double quotes. *)
Definition quoted (s : string) : string := String dq (s ++ String dq EmptyString).

(** Line terminators, which [.] does not match. *)
Definition lineTerminator (c : ascii) : bool :=
  Ascii.eqb c "010"%char || Ascii.eqb c "013"%char.

(** Characters with a special meaning in a pattern source, [.] apart. *)
Definition special (c : ascii) : bool :=
  existsb (Ascii.eqb c)
    ["\"; "^"; "$"; "*"; "+"; "?"; "("; ")"; "["; "]"; "{"; "}"; "|"]%char.

(** A pattern source of ordinary characters and [.] only. *)
Fixpoint simplePattern (p : string) : bool :=
  match p with
  | EmptyString => true
  | String c p' => negb (special c) && negb (lineTerminator c) && simplePattern p'
  end.

(** A replacement text without [$] is inserted as it is. *)
Fixpoint simpleReplacement (r : string) : bool :=
  match r with
  | EmptyString => true
  | String c r' => negb (Ascii.eqb c "$"%char) && simpleReplacement r'
  end.

(** One pattern character against one subject character. *)
Definition matchChar (p c : ascii) : bool :=
  if Ascii.eqb p "."%char then negb (lineTerminator c) else Ascii.eqb p c.

(** The simple pattern [p] matches at the start of [s]; the rest of [s]
    after the match is returned. *)
Fixpoint matchAt (p s : string) : option string :=
  match p, s with
  | EmptyString, _ => Some s
  | String _ _, EmptyString => None
  | String pc p', String c s' => if matchChar pc c then matchAt p' s' else None
  end.

(** [s.replace(RegExp(p, 'g'), r)] for a non-empty simple pattern:
    left-most matches, not overlapping.  [skip] counts the characters of
    the current match that are still to be passed over. *)
Fixpoint replaceFrom (p r : string) (skip : nat) (s : string) : string :=
  match s with
  | EmptyString => EmptyString
  | String c s' =>
      match skip with
      | S k => replaceFrom p r k s'
      | O =>
          match matchAt p s with
          | Some _ => r ++ replaceFrom p r (String.length p - 1) s'
          | None => String c (replaceFrom p r 0 s')
          end
      end
  end.

Definition replaceAll (p r s : string) : string := replaceFrom p r 0 s.

(** The part of [s] before its first line terminator: what a greedy [.*]
    can consume. *)
Fixpoint restOfLine (s : string) : string :=
  match s with
  | EmptyString => EmptyString
  | String c s' => if lineTerminator c then EmptyString else String c (restOfLine s')
  end.

(** The greedy group followed by a double quote, on one line: the text
    before the last double quote of the line, if the line has one. *)
Fixpoint uptoLastQuote (line : string) : option string :=
  match line with
  | EmptyString => None
  | String c line' =>
      match uptoLastQuote line' with
      | Some cap => Some (String c cap)
      | None => if Ascii.eqb c dq then Some EmptyString else None
      end
  end.

Definition declareModule : string := "declare module " ++ String dq EmptyString.

(** One attempt of [moduleRegex] at the start of [s]: the captured
    group. *)
Definition matchDeclare (s : string) : option string :=
  if JsString.startsWith s declareModule
  then uptoLastQuote (restOfLine (JsString.drop (String.length declareModule) s))
  else None.

(** The loop [while ((execResults = moduleRegex.exec(typing)) !== null)
    moduleNames.push(execResults[1])]: every match from left to right,
    the search resuming after the previous match ([lastIndex]). *)
Fixpoint execAll (skip : nat) (s : string) : list string :=
  match s with
  | EmptyString => []
  | String _ s' =>
      match skip with
      | S k => execAll k s'
      | O =>
          match matchDeclare s with
          | Some cap =>
              cap :: execAll (String.length declareModule + String.length cap) s'
          | None => execAll 0 s'
          end
      end
  end.

End Regex.

(** ** Node's [path] module, POSIX flavour

    [path.join] and [path.resolve] are library functions; they are
    modelled after their documented algorithm: the arguments are glued
    with [/], split into segments, and the segments are normalised (empty
    and [.] segments vanish, [..] removes the segment before it). *)

Module Path.

Definition isAbsolute (p : string) : bool :=
  match p with
  | String c _ => Ascii.eqb c "/"%char
  | EmptyString => false
  end.

Fixpoint endsWithSep (p : string) : bool :=
  match p with
  | EmptyString => false
  | String c EmptyString => Ascii.eqb c "/"%char
  | String _ p' => endsWithSep p'
  end.

(** [normalizeString]: [res] holds the segments kept so far, the last one
    first. *)
Fixpoint normalizeSegs (allowAboveRoot : bool) (res segs : list string) : list string :=
  match segs with
  | [] => rev res
  | seg :: rest =>
      if String.eqb seg "" || String.eqb seg "." then
        normalizeSegs allowAboveRoot res rest
      else if String.eqb seg ".." then
        match res with
        | lastSeg :: res' =>
            if String.eqb lastSeg ".." then
              normalizeSegs allowAboveRoot
                (if allowAboveRoot then ".." :: res else res) rest
            else normalizeSegs allowAboveRoot res' rest
        | [] =>
            normalizeSegs allowAboveRoot
              (if allowAboveRoot then [".."] else []) rest
        end
      else normalizeSegs allowAboveRoot (seg :: res) rest
  end.

Definition normalizeString (p : string) (allowAboveRoot : bool) : string :=
  JsString.join "/" (normalizeSegs allowAboveRoot [] (JsString.split "/" p)).

(** [path.normalize] *)
Definition normalize (p : string) : string :=
  match p with
  | EmptyString => "."
  | _ =>
      let body := normalizeString p (negb (isAbsolute p)) in
      match body with
      | EmptyString =>
          if isAbsolute p then "/" else if endsWithSep p then "./" else "."
      | _ =>
          let body' := if endsWithSep p then body ++ "/" else body in
          if isAbsolute p then "/" ++ body' else body'
      end
  end.

(** [path.join(...args)] *)
Definition join (args : list string) : string :=
  match filter (fun a => JsString.truthy a = true) args with
  | [] => "."
  | parts => normalize (JsString.join "/" parts)
  end.

(** The loop of [path.resolve], from the last argument backwards, ending
    at the first absolute one or else at the working directory.  The
    arguments come last first. *)
Fixpoint gather (cwd : string) (revArgs : list string) : string * bool :=
  match revArgs with
  | [] =>
      if JsString.truthy cwd then (cwd ++ "/", isAbsolute cwd)
      else (EmptyString, false)
  | p :: more =>
      if negb (JsString.truthy p) then gather cwd more
      else if isAbsolute p then (p ++ "/", true)
      else let '(r, a) := gather cwd more in (r ++ p ++ "/", a)
  end.

(** [path.resolve(...args)] in the working directory [cwd]. *)
Definition resolve (cwd : string) (args : list string) : string :=
  let '(resolvedPath, resolvedAbsolute) := gather cwd (rev args) in
  let body := normalizeString resolvedPath (negb resolvedAbsolute) in
  if resolvedAbsolute then "/" ++ body
  else if JsString.truthy body then body else ".".

End Path.

(** ** Manifest locator *)

(** A directory listing as [fs.readdirSync] and [fs.statSync] show it:
    named entries, the directories with their own listing. *)
#[local] Set Warnings "-register-all".
Inductive entry : Type :=
  | File (name : string)
  | Dir (name : string) (children : list entry).

Definition entryName (e : entry) : string :=
  match e with File n => n | Dir n _ => n end.

Definition isDirectory (e : entry) : bool :=
  match e with File _ => false | Dir _ _ => true end.

Definition entryChildren (e : entry) : list entry :=
  match e with File _ => [] | Dir _ ch => ch end.

Definition manifestName : string := "federation.config.json".

(** The first loop of [findFederationConfig]: an entry called
    [federation.config.json] ends the search at once; the directories whose
    path does not contain [node_modules] are queued. *)
Fixpoint scanDir (cwd base : string) (files : list entry)
    (queue : list (string * list entry)) : string + list (string * list entry) :=
  match files with
  | [] => inr queue
  | e :: rest =>
      let file := entryName e in
      let newBase := Path.join [base; file] in
      if String.eqb file manifestName then inl (Path.resolve cwd ["./"; newBase])
      else if isDirectory e && negb (JsString.includes newBase "node_modules")
      then scanDir cwd base rest (queue ++ [(newBase, entryChildren e)])
      else scanDir cwd base rest queue
  end.

(** [findFederationConfig], with the depth of the recursion bounded by
    [fuel].  The outer [None] is an exhausted bound; [Some None] is the
    result [undefined]. *)
Fixpoint findFederationConfigFuel (fuel : nat) (cwd base : string)
    (files : list entry) : option (option string) :=
  match fuel with
  | O => None
  | S fuel' =>
      match scanDir cwd base files [] with
      | inl found => Some (Some found)
      | inr [] => Some None
      | inr ((newBase, children) :: _) =>
          findFederationConfigFuel fuel' cwd newBase children
      end
  end.

(** Height of an entry: the number of directory levels below it. *)
Fixpoint entryHeight (e : entry) : nat :=
  match e with
  | File _ => 0
  | Dir _ ch => S (list_max (map entryHeight ch))
  end.

(** Height of a listing: one more than its deepest entry. *)
Definition height (files : list entry) : nat :=
  S (list_max (map entryHeight files)).

(** [findFederationConfig(base)] on the listing [files] of [base]. *)
Definition findFederationConfig (cwd base : string) (files : list entry) : option string :=
  match findFederationConfigFuel (height files) cwd base files with
  | Some r => r
  | None => None
  end.

(** ** Data model *)

(** The federation manifest, as [require] returns it.  [exposes] lists the
    properties of the object in the order [Object.keys] and
    [Object.values] enumerate them. *)
Record Config : Type := {
  name : string;
  exposes : list (string * string)
}.

(** A diagnostic of the emission engine, its message already flattened. *)
Record Diagnostic : Type := {
  code : N;
  messageText : string
}.

(** What [program.emit()] reports, and the text the engine wrote to the
    target path, if it wrote one. *)
Record EmitResult : Type := {
  emitSkipped : bool;
  diagnostics : list Diagnostic;
  emitted : option string
}.

(** The surroundings of one run.  [findNodeModules] gives the first
    directory that the package find-node-modules reports for a starting
    point, here [process.argv[1]]; the script loads its own dependencies
    from such a directory, so there is a first one.  [dirname] is the
    directory of the script, where the template of the package descriptor
    lies. *)
Record Env : Type := {
  argv : list string;
  cwd : string;
  dirname : string;
  findNodeModules : option string -> string;
  rootListing : list entry;
  requireConfig : string -> option Config
}.

(** Exceptions the script can meet. *)
Inductive exn : Type :=
  | ENOENT (path : string)
  | SyntaxError (pattern : string)
  | ModuleNotFound (path : string).

Definition showExn (e : exn) : string :=
  match e with
  | ENOENT p => "Error: ENOENT: no such file or directory, " ++ p
  | SyntaxError p => "SyntaxError: Invalid regular expression: " ++ p
  | ModuleNotFound p => "Error: Cannot find module " ++ p
  end.

(** The files the script works on, and what it printed. *)
Record State : Type := {
  files : gmap string string;
  out : list string;
  err : list string
}.

(** How a computation ends: with a value, by [process.exit], or by a
    thrown exception. *)
Inductive outcome (A : Type) : Type :=
  | Value (a : A)
  | Exited (status : nat)
  | Thrown (e : exn).
Arguments Value {A} a.
Arguments Exited {A} status.
Arguments Thrown {A} e.

Definition M (A : Type) : Type := State -> outcome A * State.

Definition ret {A} (a : A) : M A := fun s => (Value a, s).

Definition bind {A B} (m : M A) (k : A -> M B) : M B :=
  fun s =>
    match m s with
    | (Value a, s') => k a s'
    | (Exited c, s') => (Exited c, s')
    | (Thrown e, s') => (Thrown e, s')
    end.

Notation "x <- m ;; k" := (bind m (fun x => k))
  (at level 100, m at next level, right associativity).
Notation "m ;;; k" := (bind m (fun _ => k))
  (at level 100, right associativity).

Definition throw {A} (e : exn) : M A := fun s => (Thrown e, s).
Definition processExit {A} (status : nat) : M A := fun s => (Exited status, s).

Definition consoleLog (line : string) : M unit :=
  fun s => (Value tt, {| files := files s; out := out s ++ [line]; err := err s |}).
Definition consoleError (line : string) : M unit :=
  fun s => (Value tt, {| files := files s; out := out s; err := err s ++ [line] |}).

Definition setFiles (f : gmap string string -> gmap string string) : M unit :=
  fun s => (Value tt, {| files := f (files s); out := out s; err := err s |}).

Definition existsSync (p : string) : M bool :=
  fun s => (Value (bool_decide (is_Some (files s !! p))), s).
Definition unlinkSync (p : string) : M unit :=
  fun s => match files s !! p with
           | Some _ => setFiles (delete p) s
           | None => (Thrown (ENOENT p), s)
           end.
Definition readFileSync (p : string) : M string :=
  fun s => match files s !! p with
           | Some c => (Value c, s)
           | None => (Thrown (ENOENT p), s)
           end.
Definition writeFileSync (p content : string) : M unit :=
  setFiles (<[p := content]>).
Definition copyFileSync (src dst : string) : M unit :=
  content <- readFileSync src ;; writeFileSync dst content.

Fixpoint forEach {A} (l : list A) (f : A -> M unit) : M unit :=
  match l with
  | [] => ret tt
  | x :: l' => f x ;;; forEach l' f
  end.

Definition nl : string := String "010"%char EmptyString.

(** ** Output resolver *)

(** [getArg]: the argument after the first occurrence of [argName];
    [None] stands for both [null] (no occurrence) and [undefined] (nothing
    after it). *)
Fixpoint getArg (args : list string) (argName : string) : option string :=
  match args with
  | [] => None
  | a :: rest =>
      if String.eqb a argName then
        match rest with
        | [] => None
        | v :: _ => Some v
        end
      else getArg rest argName
  end.

Definition nodeModules (env : Env) : string :=
  findNodeModules env (argv env !! 1%nat).

Definition outDirArg (env : Env) : option string := getArg (argv env) "--outputDir".

Definition outputDir (env : Env) : string :=
  match outDirArg env with
  | Some arg =>
      if JsString.truthy arg then Path.resolve (cwd env) ["./"; arg]
      else Path.resolve (cwd env) [nodeModules env; "@types/__federated_types/"]
  | None => Path.resolve (cwd env) [nodeModules env; "@types/__federated_types/"]
  end.

(** ** Identifier rewriter, its pure part *)

Definition compileFiles (cfg : Config) : list string := map snd (exposes cfg).
Definition compileKeys (cfg : Config) : list string := map fst (exposes cfg).

(** [federationConfig.exposes[key]] *)
Fixpoint exposesGet (l : list (string * string)) (key : string) : option string :=
  match l with
  | [] => None
  | (k, v) :: l' => if String.eqb k key then Some v else exposesGet l' key
  end.

(** The test of the filter, [exposes[key].endsWith(name)].  Every key
    handed to it is a key of the object, so the case without a value does
    not arise (lemma [exposesGet_key]). *)
Definition keyMatches (cfg : Config) (id key : string) : bool :=
  match exposesGet (exposes cfg) key with
  | Some p => JsString.endsWith p id
  | None => false
  end.

(** The alias group of [id]. *)
Definition aliasGroup (cfg : Config) (id : string) : list string :=
  filter (fun key => keyMatches cfg id key = true) (compileKeys cfg).

(** The destructuring [[exposeName = name, ...aliases]]. *)
Definition exposeName (cfg : Config) (id : string) : string :=
  hd id (aliasGroup cfg id).
Definition aliases (cfg : Config) (id : string) : list string :=
  tl (aliasGroup cfg id).

(** The replacement of both kinds of slash by a forward slash. *)
Fixpoint forwardSlashes (s : string) : string :=
  match s with
  | EmptyString => EmptyString
  | String c s' =>
      String (if Ascii.eqb c "\"%char || Ascii.eqb c "/"%char then "/"%char else c)
             (forwardSlashes s')
  end.

Definition getModuleDeclareName (cfg : Config) (exposeName : string) : string :=
  forwardSlashes (Path.join [name cfg; exposeName]).

(** The template of [createAliasModule], with its line breaks and
    indentation. *)
Definition createAliasModule (cfg : Config) (moduleDeclareName alias : string) : string :=
  nl ++ "            declare module " ++ Regex.quoted (getModuleDeclareName cfg alias) ++ " {"
  ++ nl ++ "                export * from " ++ Regex.quoted moduleDeclareName
  ++ nl ++ "            }"
  ++ nl ++ "        ".

Section Script.

(** The emission engine: [ts.createProgram(compileFiles, options).emit()]
    for a target path, on the files as they are at that moment. *)
Variable emit : list string -> string -> gmap string string -> EmitResult.

(** The host's regular expressions: [s.replace(RegExp(p, 'g'), r)], with
    [None] when the pattern source is rejected. *)
Variable regexReplace : string -> string -> string -> option string.

(** What is assumed of the host: for a pattern source that is not empty
    and made of ordinary characters and wild cards, and a replacement
    without a dollar sign, the result is the replacement of the left-most
    matches, not overlapping. *)
Definition HostRegex : Prop :=
  forall p r s,
    p <> EmptyString ->
    Regex.simplePattern p = true -> Regex.simpleReplacement r = true ->
    regexReplace p r s = Some (Regex.replaceAll p r s).

(** The body of [moduleNames.forEach] for one identifier. *)
Definition rewriteName (cfg : Config) (typing id : string) : exn + string :=
  let moduleDeclareName := getModuleDeclareName cfg (exposeName cfg id) in
  match regexReplace (Regex.quoted id) (Regex.quoted moduleDeclareName) typing with
  | None => inl (SyntaxError (Regex.quoted id))
  | Some replaced =>
      inr (JsString.join nl
             (replaced :: map (createAliasModule cfg moduleDeclareName) (aliases cfg id)))
  end.

(** [moduleNames.forEach]: the identifiers in their order, each step on
    the text the previous one left. *)
Fixpoint rewriteNames (cfg : Config) (typing : string) (ids : list string) : exn + string :=
  match ids with
  | [] => inr typing
  | id :: ids' =>
      match rewriteName cfg typing id with
      | inl e => inl e
      | inr typing' => rewriteNames cfg typing' ids'
      end
  end.

Definition moduleNames (typing : string) : list string := Regex.execAll 0 typing.

(** The rewriter as a whole. *)
Definition rewriteTyping (cfg : Config) (typing : string) : exn + string :=
  rewriteNames cfg typing (moduleNames typing).

(** ** The script *)

Definition liftE {A} (r : exn + A) : M A :=
  match r with
  | inl e => throw e
  | inr a => ret a
  end.

Definition diagnosticLine (d : Diagnostic) : string :=
  "TS Error " ++ pretty (code d) ++ " : " ++ messageText d.

Definition reportDiagnostic (d : Diagnostic) : M unit :=
  consoleLog (diagnosticLine d).

Definition programEmit (cfg : Config) (outFile : string) : M EmitResult :=
  fun s =>
    let r := emit (compileFiles cfg) outFile (files s) in
    (Value r,
     {| files := match emitted r with
                 | Some text => <[outFile := text]> (files s)
                 | None => files s
                 end;
        out := out s; err := err s |}).

Definition outFileOf (env : Env) (cfg : Config) : string :=
  Path.resolve (cwd env) [outputDir env; name cfg ++ ".d.ts"].
Definition packageJsonPathOf (env : Env) : string :=
  Path.resolve (cwd env) [outputDir env; "package.json"].
Definition templatePathOf (env : Env) : string :=
  Path.resolve (cwd env) [dirname env; "typings.package.tmpl.json"].
Definition indexPathOf (env : Env) : string :=
  Path.resolve (cwd env) [outputDir env; "index.d.ts"].
Definition importStatementOf (cfg : Config) : string :=
  "export * from './" ++ name cfg ++ "';".

(** Deletion of the previous declaration file. *)
Definition removeOutFile (outFile : string) : M unit :=
  b <- existsSync outFile ;;
  if b then unlinkSync outFile else ret tt.

(** The package descriptor step. *)
Definition writePackageJson (env : Env) : M unit :=
  if JsString.includes (outputDir env) (Path.join ["node_modules"; "@types"]) then
    let packageJsonPath := packageJsonPathOf env in
    b <- existsSync packageJsonPath ;;
    if negb b then
      consoleLog ("writing package.json: " ++ packageJsonPath) ;;;
      copyFileSync (templatePathOf env) packageJsonPath
    else consoleLog (packageJsonPath ++ " already exists")
  else consoleLog "not writing to node modules, dont need a package.json".

(** The index step. *)
Definition updateIndex (indexPath importStatement : string) : M unit :=
  b <- existsSync indexPath ;;
  if negb b then
    consoleLog "creating index.d.ts file" ;;;
    writeFileSync indexPath (importStatement ++ nl)
  else
    consoleLog "updating index.d.ts file" ;;;
    contents <- readFileSync indexPath ;;
    if negb (JsString.includes contents importStatement)
    then writeFileSync indexPath (contents ++ importStatement ++ nl)
    else ret tt.

(** The body of the [try] block. *)
Definition tryBody (env : Env) (cfg : Config) : M unit :=
  let outFile := outFileOf env cfg in
  removeOutFile outFile ;;;
  r <- programEmit cfg outFile ;;
  forEach (diagnostics r) reportDiagnostic ;;;
  (if emitSkipped r then processExit 0 else ret tt) ;;;
  typing <- readFileSync outFile ;;
  typing' <- liftE (rewriteTyping cfg typing) ;;
  consoleLog ("writing typing file: " ++ outFile) ;;;
  writeFileSync outFile typing' ;;;
  writePackageJson env ;;;
  updateIndex (indexPathOf env) (importStatementOf cfg) ;;;
  consoleLog "Success!".

(** The [try] block from the test of [emitSkipped] on, for the report [r]
    of the engine. *)
Definition afterEmit (env : Env) (cfg : Config) (r : EmitResult) : M unit :=
  let outFile := outFileOf env cfg in
  (if emitSkipped r then processExit 0 else ret tt) ;;;
  typing <- readFileSync outFile ;;
  typing' <- liftE (rewriteTyping cfg typing) ;;
  consoleLog ("writing typing file: " ++ outFile) ;;;
  writeFileSync outFile typing' ;;;
  writePackageJson env ;;;
  updateIndex (indexPathOf env) (importStatementOf cfg) ;;;
  consoleLog "Success!".

(** [try { ... } catch (e) { console.error(`ERROR:`, e); process.exit(1) }] *)
Definition tryCatch (body : M unit) : M unit :=
  fun s =>
    match body s with
    | (Thrown e, s') => (consoleError ("ERROR: " ++ showExn e) ;;; processExit 1) s'
    | r => r
    end.

Definition notFoundMessage : string :=
  "ERROR: Unable to find a federation.config.json file in this package".

(** The script from the manifest search on. *)
Definition script (env : Env) : M unit :=
  match findFederationConfig (cwd env) "./" (rootListing env) with
  | None => consoleError notFoundMessage ;;; processExit 1
  | Some federationConfigPath =>
      consoleLog ("Using config file: " ++ federationConfigPath) ;;;
      match requireConfig env federationConfigPath with
      | None => throw (ModuleNotFound federationConfigPath)
      | Some cfg => tryCatch (tryBody env cfg)
      end
  end.

(** What is left of a run: the exit status of the process, what it
    printed and the files. *)
Record Result : Type := {
  status : nat;
  stdout : list string;
  stderr : list string;
  finalFiles : gmap string string
}.

(** A whole run on the files [fs].  An exception nobody catches ends the
    process with status 1 and its text on the error channel. *)
Definition run (env : Env) (fs : gmap string string) : Result :=
  match script env {| files := fs; out := []; err := [] |} with
  | (Value _, s) =>
      {| status := 0; stdout := out s; stderr := err s; finalFiles := files s |}
  | (Exited c, s) =>
      {| status := c; stdout := out s; stderr := err s; finalFiles := files s |}
  | (Thrown e, s) =>
      {| status := 1; stdout := out s; stderr := err s ++ [showExn e];
         finalFiles := files s |}
  end.

End Script.

(** ** Auxiliary definitions for the properties *)

(** The directories the first loop queues, in order, when no entry of the
    listing is the manifest. *)
Definition queued (base : string) (e : entry) : bool :=
  isDirectory e && negb (JsString.includes (Path.join [base; entryName e]) "node_modules").

Fixpoint queueOf (base : string) (files : list entry) : list (string * list entry) :=
  match files with
  | [] => []
  | e :: rest =>
      if queued base e
      then (Path.join [base; entryName e], entryChildren e) :: queueOf base rest
      else queueOf base rest
  end.

(** The entries the search looks at from the listing [files] of [base]:
    those of the listing itself and, further down, those the search looks
    at in the first queued directory. *)
Inductive visited : string -> list entry -> entry -> Prop :=
  | visited_here base files e :
      In e files -> visited base files e
  | visited_below base files newBase children rest e :
      queueOf base files = (newBase, children) :: rest ->
      visited newBase children e ->
      visited base files e.

Definition isManifest (e : entry) : bool := String.eqb (entryName e) manifestName.

(** Last character of a text. *)
Fixpoint lastChar (s : string) : option ascii :=
  match s with
  | EmptyString => None
  | String c EmptyString => Some c
  | String _ s' => lastChar s'
  end.

(** A text without the character [c]. *)
Fixpoint lacks (c : ascii) (s : string) : bool :=
  match s with
  | EmptyString => true
  | String d s' => negb (Ascii.eqb d c) && lacks c s'
  end.

(** A text without line terminators. *)
Fixpoint oneLine (s : string) : bool :=
  match s with
  | EmptyString => true
  | String c s' => negb (Regex.lineTerminator c) && oneLine s'
  end.

(** The end of a line: the end of the text or a line terminator. *)
Definition lineBreak (tail : string) : bool :=
  match tail with
  | EmptyString => true
  | String c _ => Regex.lineTerminator c
  end.

Definition withArgv (env : Env) (args : list string) : Env :=
  {| argv := args; cwd := cwd env; dirname := dirname env;
     findNodeModules := findNodeModules env; rootListing := rootListing env;
     requireConfig := requireConfig env |}.

(** The state a run starts from. *)
Definition initial (fs : gmap string string) : State :=
  {| files := fs; out := []; err := [] |}.

(** The computation [m] keeps the property [I] of the files. *)
Definition preserves {A} (I : gmap string string -> Prop) (m : M A) : Prop :=
  forall s, I (files s) -> I (files (snd (m s))).

(** The files after emission: the previous declaration file is gone and
    the target path holds what the engine wrote. *)
Definition emittedFiles
    (emit : list string -> string -> gmap string string -> EmitResult)
    (env : Env) (cfg : Config) (fs : gmap string string) : gmap string string :=
  let outFile := outFileOf env cfg in
  match emitted (emit (compileFiles cfg) outFile (delete outFile fs)) with
  | Some text => <[outFile := text]> (delete outFile fs)
  | None => delete outFile fs
  end.

(** The emission-skip property as the specification words it: the run
    ends with status 0 and no declaration file is created or modified. *)
Definition SkipTouchesNoDeclaration
    (emit : list string -> string -> gmap string string -> EmitResult)
    (regexReplace : string -> string -> string -> option string)
    (env : Env) (fs : gmap string string) : Prop :=
  status (run emit regexReplace env fs) = 0
  /\ forall q, JsString.endsWith q ".d.ts" = true ->
       finalFiles (run emit regexReplace env fs) !! q = fs !! q.

(** The reading of the rewriter in which every identifier is handled
    once: the list of identifiers has no duplicates. *)
Definition IdentifiersProcessedOnce (typing : string) : Prop :=
  NoDup (moduleNames typing).

(** ** Sample inputs *)

Module Sample.

(** A host that accepts the simple patterns only. *)
Definition regexReplace (p r s : string) : option string :=
  if Regex.simplePattern p && Regex.simpleReplacement r
  then Some (Regex.replaceAll p r s) else None.

(** The manifest of the alias example. *)
Definition cfg : Config :=
  {| name := "app";
     exposes := [("./Button", "src/Button.ts"); ("./Btn", "src/Button.ts")] |}.

Definition body : string :=
  " {" ++ nl ++ "    export const x: number;" ++ nl ++ "}" ++ nl.

(** An emitted blob with one module. *)
Definition blob : string := "declare module " ++ Regex.quoted "src/Button.ts" ++ body.

(** The alias block for the key ./Btn. *)
Definition btnBlock : string :=
  nl ++ "            declare module " ++ Regex.quoted "app/Btn" ++ " {"
  ++ nl ++ "                export * from " ++ Regex.quoted "app/Button"
  ++ nl ++ "            }"
  ++ nl ++ "        ".

(** A blob in which the same identifier is declared twice. *)
Definition dupBlob : string := blob ++ blob.

Definition tree : list entry :=
  [File "package.json"; Dir "src" [File "federation.config.json"; File "Button.ts"]].

Definition env : Env :=
  {| argv := ["/usr/bin/node"; "/p/node_modules/federated-types/cli.js"];
     cwd := "/p";
     dirname := "/p/node_modules/federated-types";
     findNodeModules := fun _ => "/p/node_modules";
     rootListing := tree;
     requireConfig := fun _ => Some cfg |}.

(** A tree without a manifest where the search looks; the only one is
    under the vendored directory. *)
Definition bareTree : list entry :=
  [File "package.json";
   Dir "node_modules" [Dir "dep" [File "federation.config.json"]];
   Dir "src" [File "Button.ts"]].

Definition bareEnv : Env :=
  {| argv := argv env; cwd := cwd env; dirname := dirname env;
     findNodeModules := findNodeModules env; rootListing := bareTree;
     requireConfig := requireConfig env |}.

(** The command line with the flag as its last word. *)
Definition flagEnv : Env :=
  {| argv := ["/usr/bin/node"; "/p/node_modules/federated-types/cli.js"; "--outputDir"];
     cwd := cwd env; dirname := dirname env;
     findNodeModules := findNodeModules env; rootListing := tree;
     requireConfig := requireConfig env |}.

(** A tree whose only manifest is in a later sibling directory. *)
Definition lateTree : list entry :=
  [File "package.json"; Dir "docs" []; Dir "pkg" [File "federation.config.json"]].

Definition lateEnv : Env :=
  {| argv := argv env; cwd := cwd env; dirname := dirname env;
     findNodeModules := findNodeModules env; rootListing := lateTree;
     requireConfig := requireConfig env |}.

Definition manifestPath : string := "/p/src/federation.config.json".
Definition outFile : string := "/p/node_modules/@types/__federated_types/app.d.ts".
Definition packageJson : string := "/p/node_modules/@types/__federated_types/package.json".
Definition indexFile : string := "/p/node_modules/@types/__federated_types/index.d.ts".
Definition template : string := "/p/node_modules/federated-types/typings.package.tmpl.json".

(** An engine that emits [blob]. *)
Definition emitBlob (_ : list string) (_ : string) (_ : gmap string string) : EmitResult :=
  {| emitSkipped := false; diagnostics := []; emitted := Some blob |}.

(** An engine that skips emission and writes nothing. *)
Definition emitSkip (_ : list string) (_ : string) (_ : gmap string string) : EmitResult :=
  {| emitSkipped := true;
     diagnostics := [ {| code := 6053%N; messageText := "File not found." |} ];
     emitted := None |}.

(** Files before a run: the bundled template, and a declaration file and a
    package descriptor from earlier. *)
Definition fs0 : gmap string string :=
  <[template := "{}"]> (<[outFile := "old"]> (<[packageJson := "custom"]> ∅)).

(** Files in which the index already holds the line for the manifest. *)
Definition fs1 : gmap string string :=
  <[indexFile := "export * from './lib';" ++ nl ++ "export * from './app';" ++ nl]> fs0.

End Sample.

(** ** Further auxiliary definitions *)

(** Two states with the same files and the same error channel. *)
Definition sameButOut (s s' : State) : Prop :=
  files s = files s' /\ err s = err s'.

(** A computation whose outcome, files and error channel do not depend
    on what was printed on the standard output before it. *)
Definition logBlind {A} (m : M A) : Prop :=
  forall s s', sameButOut s s' ->
    fst (m s) = fst (m s') /\ sameButOut (snd (m s)) (snd (m s')).

(** The standard output of [s] begins with the lines [l]. *)
Definition outPrefix (l : list string) (s : State) : Prop :=
  exists more, out s = List.app l more.

(** A computation that only adds to the standard output. *)
Definition keepsOut {A} (m : M A) : Prop :=
  forall l s, outPrefix l s -> outPrefix l (snd (m s)).

(** A computation that writes nothing on the error channel and leaves
    the process with status 0 only. *)
Definition quiet {A} (m : M A) : Prop :=
  forall s, err (snd (m s)) = err s /\ forall c, fst (m s) = Exited c -> c = 0.

(** The files after the package descriptor step, when the step does not
    throw: the template is copied if the output directory is under the
    shared type declarations and the descriptor is not there. *)
Definition withPackageJson (env : Env) (fs : gmap string string) : gmap string string :=
  if JsString.includes (outputDir env) "node_modules/@types" then
    match fs !! packageJsonPathOf env, fs !! templatePathOf env with
    | None, Some content => <[packageJsonPathOf env := content]> fs
    | _, _ => fs
    end
  else fs.

(** The files after the index step. *)
Definition withIndexLine (indexPath importStatement : string)
    (fs : gmap string string) : gmap string string :=
  match fs !! indexPath with
  | None => <[indexPath := importStatement ++ nl]> fs
  | Some contents =>
      if JsString.includes contents importStatement then fs
      else <[indexPath := contents ++ importStatement ++ nl]> fs
  end.

(** A path segment that normalisation keeps as it is: not empty, without
    a slash of either kind, and neither of the dot segments. *)
Definition plainSegment (s : string) : bool :=
  JsString.truthy s && lacks "/"%char s && lacks "\"%char s
  && negb (String.eqb s ".") && negb (String.eqb s "..").

(** ** Further sample inputs *)

Module Cases.

(** The command line with a value for the flag. *)
Definition valueEnv : Env :=
  withArgv Sample.env
    ["/usr/bin/node"; "/p/node_modules/federated-types/cli.js"; "--outputDir"; "dist/types"].

(** The command line with an empty value for the flag. *)
Definition emptyValueEnv : Env :=
  withArgv Sample.env
    ["/usr/bin/node"; "/p/node_modules/federated-types/cli.js"; "--outputDir"; ""].

(** The command line with a word the script does not know. *)
Definition verboseEnv : Env :=
  withArgv Sample.env
    ["/usr/bin/node"; "/p/node_modules/federated-types/cli.js"; "--verbose"].

(** A listing with the manifest behind two directories, one of which
    holds a manifest of its own. *)
Definition rootTree : list entry :=
  [Dir "docs" [File "federation.config.json"]; Dir "src" [];
   File "federation.config.json"].

(** Two listings that differ under the vendored directory only. *)
Definition vendoredTree (inside : list entry) : list entry :=
  [File "package.json"; Dir "node_modules" inside;
   Dir "src" [File "federation.config.json"]].

(** What the engine emits for a module whose identifier is not a valid
    pattern source. *)
Definition badBlob : string :=
  "declare module " ++ Regex.quoted "lib/c++/Vec" ++ Sample.body.

Definition emitBad (_ : list string) (_ : string) (_ : gmap string string) : EmitResult :=
  {| emitSkipped := false; diagnostics := []; emitted := Some badBlob |}.

(** An engine that emits [Sample.blob] and reports two diagnostics. *)
Definition emitNoisy (_ : list string) (_ : string) (_ : gmap string string) : EmitResult :=
  {| emitSkipped := false;
     diagnostics := [ {| code := 2307%N; messageText := "Cannot find module." |};
                      {| code := 7016%N; messageText := "Could not find a declaration file." |} ];
     emitted := Some Sample.blob |}.

(** An environment in which the manifest cannot be loaded. *)
Definition brokenEnv : Env :=
  {| argv := argv Sample.env; cwd := cwd Sample.env; dirname := dirname Sample.env;
     findNodeModules := findNodeModules Sample.env; rootListing := Sample.tree;
     requireConfig := fun _ => None |}.

(** Files without the bundled template and without a package descriptor. *)
Definition fsBare : gmap string string := <[Sample.outFile := "old"]> ∅.

(** The rewritten text for [Sample.blob]. *)
Definition rewritten : string :=
  "declare module " ++ Regex.quoted "app/Button" ++ Sample.body ++ nl ++ Sample.btnBlock.

(** A manifest in which one key only has the path of the module. *)
Definition singleCfg : Config :=
  {| name := "app";
     exposes := [("./Button", "src/Button.ts"); ("./Card", "src/Card.ts")] |}.

(** A text in which the declaration header has no closing quote. *)
Definition openHeader : string :=
  Regex.declareModule ++ "src/Button.ts {" ++ nl ++ Sample.blob.

End Cases.

(** ** Alias blocks in the output *)

(** The reading of the alias property in which the output of the rewriter
    declares a module under the public name of the key. *)
Definition AliasDeclared
    (regexReplace : string -> string -> string -> option string)
    (cfg : Config) (typing key : string) : Prop :=
  exists output,
    rewriteTyping regexReplace cfg typing = inr output
    /\ JsString.includes output
         ("declare module " ++ Regex.quoted (getModuleDeclareName cfg key)) = true.

Module Clash.

(** A manifest with two keys for one file, and a blob that declares two
    modules: the exposed one and the one of the file app/Btn, whose
    identifier is the public name of the second key. *)
Definition cfg : Config :=
  {| name := "app";
     exposes := [("./Button", "src/Button"); ("./Btn", "src/Button")] |}.

Definition twoBlob : string :=
  "declare module " ++ Regex.quoted "src/Button" ++ Sample.body
  ++ "declare module " ++ Regex.quoted "app/Btn" ++ Sample.body.

(** The block that the step for src/Button adds, after the step for
    app/Btn has gone over it. *)
Definition clobberedBlock : string :=
  nl ++ "            declare module " ++ Regex.quoted "app/app/Btn" ++ " {"
  ++ nl ++ "                export * from " ++ Regex.quoted "app/Button"
  ++ nl ++ "            }"
  ++ nl ++ "        ".

(** A manifest with two keys for a file whose identifier is not a valid
    pattern source. *)
Definition cppCfg : Config :=
  {| name := "app";
     exposes := [("./Vec", "lib/c++/Vec"); ("./V", "lib/c++/Vec")] |}.

End Clash.


(** ** Texts *)

Lemma app_cons (c : ascii) (s t : string) : String c s ++ t = String c (s ++ t).
Proof. reflexivity. Qed.

Lemma app_empty_l (s : string) : "" ++ s = s.
Proof. reflexivity. Qed.

Lemma app_empty_r (s : string) : s ++ "" = s.
Proof. induction s as [|c s IH]; [reflexivity|]. rewrite app_cons, IH. reflexivity. Qed.

Lemma app_assoc_s (a b c : string) : (a ++ b) ++ c = a ++ b ++ c.
Proof.
  induction a as [|x a IH]; [reflexivity|].
  rewrite !app_cons, IH. reflexivity.
Qed.

Lemma length_app_s (a b : string) :
  String.length (a ++ b) = String.length a + String.length b.
Proof.
  induction a as [|x a IH]; [reflexivity|].
  rewrite app_cons. simpl. rewrite IH. reflexivity.
Qed.

Lemma prefix_refl_app (p s : string) : String.prefix p (p ++ s) = true.
Proof.
  induction p as [|c p IH].
  - destruct s; reflexivity.
  - rewrite app_cons. simpl. destruct (ascii_dec c c); [assumption | congruence].
Qed.

Lemma prefix_split (p s : string) :
  String.prefix p s = true -> exists t, s = p ++ t.
Proof.
  revert s. induction p as [|c p IH]; intros s H.
  - exists s. reflexivity.
  - destruct s as [|d s]; [discriminate|]. simpl in H.
    destruct (ascii_dec c d) as [->|]; [|discriminate].
    destruct (IH _ H) as [t ->]. exists t. reflexivity.
Qed.

Lemma includes_prefix (s sub : string) :
  String.prefix sub s = true -> JsString.includes s sub = true.
Proof. intros H. destruct s; cbn [JsString.includes]; rewrite H; reflexivity. Qed.

Lemma includes_mid (a b c : string) : JsString.includes (a ++ b ++ c) b = true.
Proof.
  induction a as [|x a IH].
  - rewrite app_empty_l. apply includes_prefix, prefix_refl_app.
  - rewrite app_cons. cbn [JsString.includes]. rewrite IH. apply orb_true_r.
Qed.

Lemma includes_split (s sub : string) :
  JsString.includes s sub = true -> exists a c, s = a ++ sub ++ c.
Proof.
  induction s as [|x s IH]; cbn [JsString.includes]; intros H.
  - rewrite orb_false_r in H. destruct sub; [|discriminate].
    exists "", "". reflexivity.
  - apply orb_true_iff in H as [H|H].
    + apply prefix_split in H as [t Ht]. exists "", t. rewrite Ht. reflexivity.
    + destruct (IH H) as (a & c & ->). exists (String x a), c. reflexivity.
Qed.

Lemma substring_all (s : string) : substring 0 (String.length s) s = s.
Proof. induction s as [|c s IH]; [reflexivity|]. simpl. rewrite IH. reflexivity. Qed.

Lemma substring_skip (u v : string) :
  substring (String.length u) (String.length v) (u ++ v) = v.
Proof.
  induction u as [|c u IH].
  - apply substring_all.
  - rewrite app_cons. simpl. apply IH.
Qed.

Lemma substring_cut (k : nat) (s : string) :
  k <= String.length s ->
  s = substring 0 k s ++ substring k (String.length s - k) s.
Proof.
  revert k. induction s as [|c s IH]; intros k Hk.
  - destruct k; [reflexivity | simpl in Hk; lia].
  - destruct k as [|k].
    + simpl. rewrite substring_all. reflexivity.
    + simpl in Hk. simpl. rewrite app_cons. f_equal. apply IH. lia.
Qed.

(** [endsWith] is the suffix test. *)
Lemma endsWith_spec (s suf : string) :
  JsString.endsWith s suf = true <-> exists u, s = u ++ suf.
Proof.
  unfold JsString.endsWith. split.
  - destruct (Nat.leb_spec (String.length suf) (String.length s)) as [Hle|]; [|discriminate].
    intros H. apply String.eqb_eq in H.
    exists (substring 0 (String.length s - String.length suf) s).
    pose proof (substring_cut (String.length s - String.length suf) s) as Hcut.
    replace (String.length s - (String.length s - String.length suf))
      with (String.length suf) in Hcut by lia.
    rewrite H in Hcut. apply Hcut. lia.
  - intros [u ->]. rewrite length_app_s.
    destruct (Nat.leb_spec (String.length suf) (String.length u + String.length suf)); [|lia].
    replace (String.length u + String.length suf - String.length suf)
      with (String.length u) by lia.
    rewrite substring_skip. apply String.eqb_refl.
Qed.

Lemma lastChar_app (a : string) (c : ascii) (b : string) :
  lastChar (a ++ String c b) = lastChar (String c b).
Proof.
  induction a as [|x a IH]; [reflexivity|].
  rewrite app_cons. rewrite <- IH.
  destruct (a ++ String c b) eqn:E; [destruct a; discriminate|].
  reflexivity.
Qed.

Lemma lastChar_snoc (a : string) (c : ascii) : lastChar (a ++ String c "") = Some c.
Proof. rewrite lastChar_app. reflexivity. Qed.


(** ** Paths *)

Lemma split_nonempty (sep : ascii) (s : string) :
  exists seg segs, JsString.split sep s = seg :: segs.
Proof.
  destruct s as [|c s]; simpl; [eauto|].
  destruct (Ascii.eqb c sep); [eauto|].
  destruct (JsString.split sep s); eauto.
Qed.

Lemma split_app_sep (sep : ascii) (a b : string) :
  JsString.split sep (a ++ String sep b) = (JsString.split sep a ++ JsString.split sep b)%list.
Proof.
  induction a as [|x a IH].
  - rewrite app_empty_l. simpl. rewrite Ascii.eqb_refl. reflexivity.
  - rewrite app_cons. simpl. destruct (Ascii.eqb x sep).
    + rewrite IH. reflexivity.
    + rewrite IH. destruct (split_nonempty sep a) as (seg & segs & ->). reflexivity.
Qed.

Lemma split_snoc (sep c : ascii) (y : string) :
  c <> sep ->
  exists init seg, JsString.split sep (y ++ String c "") = List.app init [seg ++ String c ""].
Proof.
  intros Hc. induction y as [|x y (init & seg & IH)].
  - exists [], "". simpl. apply Ascii.eqb_neq in Hc. rewrite Hc. reflexivity.
  - rewrite app_cons. simpl. rewrite IH. destruct (Ascii.eqb x sep).
    + exists ("" :: init), seg. reflexivity.
    + destruct init as [|i init].
      * exists [], (String x seg). reflexivity.
      * exists (String x i :: init), seg. reflexivity.
Qed.

Lemma normalizeSegs_app (a : bool) (l1 l2 res : list string) :
  exists res', Path.normalizeSegs a res (l1 ++ l2)%list = Path.normalizeSegs a res' l2.
Proof.
  revert res. induction l1 as [|seg l1 IH]; intros res.
  - exists res. reflexivity.
  - simpl. destruct (_ || _); [apply IH|].
    destruct (String.eqb seg ".."); [|apply IH].
    destruct res as [|lastSeg res]; [apply IH|].
    destruct (String.eqb lastSeg ".."); apply IH.
Qed.

Lemma normalizeSegs_keep (a : bool) (res rest : list string) (seg : string) (c : ascii) :
  c <> "."%char ->
  Path.normalizeSegs a res ((seg ++ String c "") :: rest)
  = Path.normalizeSegs a ((seg ++ String c "") :: res) rest.
Proof.
  intros Hc. simpl.
  assert (Hne : forall t, lastChar t <> Some c -> String.eqb (seg ++ String c "") t = false).
  { intros t Ht. apply String.eqb_neq. intros E. apply Ht. rewrite <- E. apply lastChar_snoc. }
  rewrite !Hne; [reflexivity | simpl; congruence..].
Qed.

Lemma join_snoc (sep : string) (l : list string) (seg : string) :
  exists z, JsString.join sep (l ++ [seg])%list = z ++ seg.
Proof.
  induction l as [|p l (z & IH)].
  - exists "". reflexivity.
  - simpl. rewrite IH. destruct (l ++ [seg])%list eqn:E; [destruct l; discriminate|].
    exists (p ++ sep ++ z). rewrite !app_assoc_s. reflexivity.
Qed.

Lemma truthy_snoc (a : string) (c : ascii) : JsString.truthy (a ++ String c "") = true.
Proof. destruct a; reflexivity. Qed.

(** A resolved path ends with the last character of its last argument,
    when that character is neither a separator nor a dot. *)
Lemma resolve_lastChar (cwd d x : string) (c : ascii) :
  c <> "/"%char -> c <> "."%char ->
  lastChar (Path.resolve cwd [d; x ++ String c ""]) = Some c.
Proof.
  intros Hsep Hdot. unfold Path.resolve.
  assert (Hg : exists r a, Path.gather cwd (rev [d; x ++ String c ""])
                           = (((r ++ x) ++ String c "") ++ String "/" "", a)).
  { simpl. rewrite truthy_snoc. simpl.
    destruct (Path.isAbsolute (x ++ String c "")).
    - exists "", true. reflexivity.
    - destruct (if negb (JsString.truthy d) then _ else _) as [r a].
      exists r, a. rewrite !app_assoc_s. reflexivity. }
  destruct Hg as (r & a & ->). cbv beta iota.
  unfold Path.normalizeString. rewrite split_app_sep.
  destruct (split_snoc "/" c (r ++ x) Hsep) as (init & seg & ->).
  rewrite <- app_assoc.
  destruct (normalizeSegs_app (negb a) init (List.app [seg ++ String c ""] (JsString.split "/" "")) [])
    as [res' ->].
  simpl app. rewrite normalizeSegs_keep by assumption. simpl.
  destruct (join_snoc "/" (rev res') (seg ++ String c "")) as [z ->].
  replace (z ++ seg ++ String c "") with ((z ++ seg) ++ String c "")
    by apply app_assoc_s.
  destruct a; cbn [negb].
  - rewrite <- app_assoc_s. apply lastChar_snoc.
  - rewrite truthy_snoc. apply lastChar_snoc.
Qed.

Lemma resolve_neq (cwd d1 d2 x1 x2 : string) (c1 c2 : ascii) :
  c1 <> "/"%char -> c1 <> "."%char -> c2 <> "/"%char -> c2 <> "."%char -> c1 <> c2 ->
  Path.resolve cwd [d1; x1 ++ String c1 ""] <> Path.resolve cwd [d2; x2 ++ String c2 ""].
Proof.
  intros ? ? ? ? Hne E. apply (f_equal lastChar) in E.
  rewrite !resolve_lastChar in E by assumption. congruence.
Qed.


(** ** Manifest locator *)

Section Locator.

Variable cwd : string.

Lemma scanDir_no_manifest (base : string) (files : list entry)
    (queue : list (string * list entry)) :
  Forall (fun e => isManifest e = false) files ->
  scanDir cwd base files queue = inr (List.app queue (queueOf base files)).
Proof.
  intros H. revert queue. induction H as [|e files He _ IH]; intros queue.
  - simpl. rewrite app_nil_r. reflexivity.
  - simpl. unfold isManifest in He. rewrite He. unfold queued.
    destruct (isDirectory e && _).
    + rewrite IH, <- app_assoc. reflexivity.
    + apply IH.
Qed.

Lemma scanDir_manifest (base : string) (pre post : list entry) (e : entry)
    (queue : list (string * list entry)) :
  Forall (fun e => isManifest e = false) pre ->
  isManifest e = true ->
  scanDir cwd base (List.app pre (e :: post)) queue
  = inl (Path.resolve cwd ["./"; Path.join [base; entryName e]]).
Proof.
  intros H He. revert queue. induction H as [|x pre Hx _ IH]; intros queue.
  - simpl. unfold isManifest in He. rewrite He. reflexivity.
  - simpl. unfold isManifest in Hx. rewrite Hx.
    destruct (isDirectory x && _); apply IH.
Qed.

Lemma queueOf_children (base : string) (files : list entry) (newBase : string)
    (children : list entry) :
  In (newBase, children) (queueOf base files) ->
  exists e, In e files /\ queued base e = true
            /\ newBase = Path.join [base; entryName e] /\ children = entryChildren e.
Proof.
  induction files as [|e files IH]; simpl; [tauto|].
  destruct (queued base e) eqn:Hq.
  - intros [E|Hin].
    + inversion E; subst. exists e. auto.
    + destruct (IH Hin) as (e' & ? & ?). exists e'. tauto.
  - intros Hin. destruct (IH Hin) as (e' & ? & ?). exists e'. tauto.
Qed.

Lemma entryHeight_le (files : list entry) (e : entry) :
  In e files -> entryHeight e < height files.
Proof.
  intros Hin. unfold height. apply Nat.lt_succ_r.
  induction files as [|x files IH]; [destruct Hin|].
  simpl. destruct Hin as [->|Hin]; [lia|]. specialize (IH Hin). lia.
Qed.

Lemma height_children (e : entry) :
  isDirectory e = true -> height (entryChildren e) = entryHeight e.
Proof. destruct e; [discriminate | reflexivity]. Qed.

Lemma scanDir_found_manifest (base : string) (files : list entry)
    (queue : list (string * list entry)) (found : string) :
  scanDir cwd base files queue = inl found ->
  exists e, In e files /\ isManifest e = true.
Proof.
  revert queue. induction files as [|e files IH]; intros queue; simpl; [discriminate|].
  destruct (String.eqb (entryName e) manifestName) eqn:He.
  - intros _. exists e. auto.
  - destruct (isDirectory e && _); intros H; destruct (IH _ H) as (x & ? & ?); eauto.
Qed.

Lemma scanDir_queue (base : string) (files : list entry)
    (q : list (string * list entry)) :
  scanDir cwd base files [] = inr q -> q = queueOf base files.
Proof.
  intros H.
  destruct (forallb (fun e => negb (isManifest e)) files) eqn:Hall.
  - rewrite scanDir_no_manifest in H.
    + inversion H. reflexivity.
    + apply List.Forall_forall. intros e He.
      rewrite forallb_forall in Hall. apply negb_true_iff, Hall, He.
  - exfalso.
    assert (Hex : exists pre e post, files = List.app pre (e :: post)
              /\ Forall (fun e => isManifest e = false) pre /\ isManifest e = true).
    { clear H. induction files as [|x files IH]; [discriminate|].
      simpl in Hall. destruct (isManifest x) eqn:Hx.
      - exists [], x, files. auto.
      - destruct (IH Hall) as (pre & e & post & -> & ? & ?).
        exists (x :: pre), e, post. auto. }
    destruct Hex as (pre & e & post & -> & Hpre & He).
    rewrite (scanDir_manifest _ _ _ _ _ Hpre He) in H. discriminate.
Qed.

(** Enough fuel: the bounded search gives a result once the bound
    reaches the height of the listing. *)
Lemma fuel_enough (fuel : nat) :
  forall base files, height files <= fuel ->
    exists r, findFederationConfigFuel fuel cwd base files = Some r
              /\ forall fuel', height files <= fuel' ->
                   findFederationConfigFuel fuel' cwd base files = Some r.
Proof.
  induction fuel as [|fuel IH]; intros base files Hh.
  - unfold height in Hh. lia.
  - assert (Hstep : forall newBase children rest,
              scanDir cwd base files [] = inr ((newBase, children) :: rest) ->
              height children < height files).
    { intros nb ch rest Hs. apply scanDir_queue in Hs.
      destruct (queueOf_children base files nb ch) as (e & Hin & Hq & _ & ->).
      { rewrite <- Hs. left. reflexivity. }
      apply andb_true_iff in Hq as [Hd _].
      rewrite height_children by assumption. apply entryHeight_le. assumption. }
    simpl. destruct (scanDir cwd base files []) as [found|[|[nb ch] rest]] eqn:Hs.
    + exists (Some found). split; [reflexivity|].
      intros [|fuel'] Hf; [unfold height in Hf; lia|]. simpl. rewrite Hs. reflexivity.
    + exists None. split; [reflexivity|].
      intros [|fuel'] Hf; [unfold height in Hf; lia|]. simpl. rewrite Hs. reflexivity.
    + specialize (Hstep nb ch rest eq_refl).
      destruct (IH nb ch) as (r & Hr & Hall); [lia|].
      exists r. split; [assumption|].
      intros [|fuel'] Hf; [unfold height in Hf; lia|]. simpl. rewrite Hs.
      apply Hall. lia.
Qed.

(** The search returns, and its result does not depend on the bound. *)
Lemma findFederationConfig_fuel (fuel : nat) (base : string) (files : list entry) :
  height files <= fuel ->
  findFederationConfigFuel fuel cwd base files = Some (findFederationConfig cwd base files).
Proof.
  intros Hf. destruct (fuel_enough fuel base files Hf) as (r & Hr & Hall).
  unfold findFederationConfig. rewrite (Hall (height files)) by lia. assumption.
Qed.

Lemma findFederationConfigFuel_step (fuel : nat) (base : string) (files : list entry) :
  findFederationConfigFuel (S fuel) cwd base files
  = match scanDir cwd base files [] with
    | inl found => Some (Some found)
    | inr [] => Some None
    | inr ((newBase, children) :: _) => findFederationConfigFuel fuel cwd newBase children
    end.
Proof. reflexivity. Qed.

(** The recursion equation of [findFederationConfig]. *)
Lemma findFederationConfig_eq (base : string) (files : list entry) :
  findFederationConfig cwd base files
  = match scanDir cwd base files [] with
    | inl found => Some found
    | inr [] => None
    | inr ((newBase, children) :: _) => findFederationConfig cwd newBase children
    end.
Proof.
  pose proof (findFederationConfig_fuel (S (height files)) base files) as H.
  rewrite findFederationConfigFuel_step in H.
  specialize (H ltac:(lia)).
  destruct (scanDir cwd base files []) as [found|[|[nb ch] rest]] eqn:Hs.
  - congruence.
  - congruence.
  - apply scanDir_queue in Hs.
    destruct (queueOf_children base files nb ch) as (e & Hin & Hq & _ & ->).
    { rewrite <- Hs. left. reflexivity. }
    apply andb_true_iff in Hq as [Hd _].
    rewrite findFederationConfig_fuel in H; [congruence|].
    rewrite height_children by assumption.
    pose proof (entryHeight_le files e Hin). lia.
Qed.

(** Without a manifest among the entries the search looks at, the result
    is [undefined]. *)
Lemma findFederationConfig_none (n : nat) :
  forall base files, height files <= n ->
    (forall e, visited base files e -> isManifest e = false) ->
    findFederationConfig cwd base files = None.
Proof.
  induction n as [|n IH]; intros base files Hh Hv.
  - unfold height in Hh. lia.
  - rewrite findFederationConfig_eq.
    destruct (scanDir cwd base files []) as [found|[|[nb ch] rest]] eqn:Hs.
    + apply scanDir_found_manifest in Hs as (e & Hin & He).
      rewrite Hv in He; [discriminate|]. apply visited_here. assumption.
    + reflexivity.
    + apply scanDir_queue in Hs.
      destruct (queueOf_children base files nb ch) as (e & Hin & Hq & _ & Hch).
      { rewrite <- Hs. left. reflexivity. }
      apply andb_true_iff in Hq as [Hd _].
      apply IH.
      * subst ch. rewrite height_children by assumption.
        pose proof (entryHeight_le files e Hin). lia.
      * intros x Hx. apply Hv. eapply visited_below; [symmetry; exact Hs | exact Hx].
Qed.

End Locator.


(** ** Regular expressions *)

Lemma simplePattern_app (a b : string) :
  Regex.simplePattern (a ++ b) = Regex.simplePattern a && Regex.simplePattern b.
Proof.
  induction a as [|c a IH]; [reflexivity|].
  rewrite app_cons. simpl. rewrite IH, !andb_assoc. reflexivity.
Qed.

Lemma matchChar_refl (c : ascii) :
  Regex.lineTerminator c = false -> Regex.matchChar c c = true.
Proof.
  intros H. unfold Regex.matchChar. rewrite H, Ascii.eqb_refl.
  destruct (Ascii.eqb c "."); reflexivity.
Qed.

Lemma matchAt_self (p s : string) :
  Regex.simplePattern p = true -> Regex.matchAt p (p ++ s) = Some s.
Proof.
  induction p as [|c p IH]; intros H.
  - destruct s; reflexivity.
  - rewrite app_cons. simpl in H |- *.
    apply andb_true_iff in H as [H Hp]. apply andb_true_iff in H as [_ Hlt].
    rewrite matchChar_refl by (apply negb_true_iff; assumption). auto.
Qed.

Lemma replaceFrom_skip (p r a s : string) :
  Regex.replaceFrom p r (String.length a) (a ++ s) = Regex.replaceFrom p r 0 s.
Proof.
  induction a as [|c a IH]; [reflexivity|].
  rewrite app_cons. simpl. destruct s; exact IH.
Qed.

(** A match at the start of the text is replaced, and the search goes on
    behind it. *)
Lemma replaceAll_match (c : ascii) (p r s : string) :
  Regex.simplePattern (String c p) = true ->
  Regex.replaceAll (String c p) r (String c p ++ s)
  = r ++ Regex.replaceAll (String c p) r s.
Proof.
  intros H. pose proof (matchAt_self _ s H) as Hm. rewrite app_cons in Hm.
  unfold Regex.replaceAll. rewrite app_cons.
  cbn [Regex.replaceFrom]. rewrite Hm. f_equal.
  replace (String.length (String c p) - 1) with (String.length p) by (simpl; lia).
  apply replaceFrom_skip.
Qed.

Lemma matchChar_dq (c : ascii) : Regex.matchChar Regex.dq c = Ascii.eqb c Regex.dq.
Proof.
  unfold Regex.matchChar. change (Ascii.eqb Regex.dq ".") with false.
  cbv iota. apply Ascii.eqb_sym.
Qed.

(** A pattern that begins with a double quote matches nowhere in a text
    without double quotes. *)
Lemma replaceAll_unquoted (p r a s : string) :
  lacks Regex.dq a = true ->
  Regex.replaceAll (String Regex.dq p) r (a ++ s)
  = a ++ Regex.replaceAll (String Regex.dq p) r s.
Proof.
  unfold Regex.replaceAll. induction a as [|c a IH]; intros H; [reflexivity|].
  rewrite !app_cons. simpl in H. apply andb_true_iff in H as [Hc Ha].
  cbn [Regex.replaceFrom Regex.matchAt].
  apply negb_true_iff in Hc. rewrite matchChar_dq, Hc, IH by assumption.
  reflexivity.
Qed.

Lemma execAll_skip (a s : string) :
  Regex.execAll (String.length a) (a ++ s) = Regex.execAll 0 s.
Proof.
  induction a as [|c a IH]; [reflexivity|].
  rewrite app_cons. simpl. exact IH.
Qed.

Lemma restOfLine_app (a tail : string) :
  oneLine a = true -> lineBreak tail = true -> Regex.restOfLine (a ++ tail) = a.
Proof.
  intros Ha Ht. induction a as [|c a IH].
  - destruct tail as [|c t]; [reflexivity|]. simpl in Ht. simpl. rewrite Ht. reflexivity.
  - rewrite app_cons. simpl in Ha |- *. apply andb_true_iff in Ha as [Hc Ha].
    apply negb_true_iff in Hc. rewrite Hc, IH by assumption. reflexivity.
Qed.

Lemma uptoLastQuote_none (rest : string) :
  lacks Regex.dq rest = true -> Regex.uptoLastQuote rest = None.
Proof.
  induction rest as [|c rest IH]; [reflexivity|]. simpl. intros H.
  apply andb_true_iff in H as [Hc Hr]. rewrite IH by assumption.
  apply negb_true_iff in Hc. rewrite Hc. reflexivity.
Qed.

Lemma uptoLastQuote_last (id rest : string) :
  lacks Regex.dq rest = true ->
  Regex.uptoLastQuote (id ++ String Regex.dq rest) = Some id.
Proof.
  intros H. induction id as [|c id IH].
  - rewrite app_empty_l. simpl. rewrite uptoLastQuote_none by assumption. reflexivity.
  - rewrite app_cons. simpl. rewrite IH. reflexivity.
Qed.

Lemma oneLine_app (a b : string) : oneLine (a ++ b) = oneLine a && oneLine b.
Proof.
  induction a as [|c a IH]; [reflexivity|].
  rewrite app_cons. simpl. rewrite IH, andb_assoc. reflexivity.
Qed.

Lemma drop_app (a s : string) : JsString.drop (String.length a) (a ++ s) = s.
Proof. induction a as [|c a IH]; [destruct s; reflexivity | exact IH]. Qed.

Lemma prefix_cons (a c : ascii) (p s : string) :
  String.prefix (String a p) (String c s)
  = if ascii_dec a c then String.prefix p s else false.
Proof. reflexivity. Qed.

(** The declaration header cannot start inside the rest of a line that
    has no double quote. *)
Lemma prefix_blocked (p rest tail : string) :
  oneLine p = true -> lacks Regex.dq rest = true -> lineBreak tail = true ->
  String.prefix (p ++ String Regex.dq "") (rest ++ tail) = false.
Proof.
  revert rest. induction p as [|a p IH]; intros rest Hp Hr Ht.
  - rewrite app_empty_l. destruct rest as [|c rest].
    + rewrite app_empty_l. destruct tail as [|c t]; [reflexivity|].
      rewrite prefix_cons. cbn [lineBreak] in Ht.
      destruct (ascii_dec Regex.dq c) as [<-|]; [discriminate | reflexivity].
    + rewrite app_cons, prefix_cons. cbn [lacks] in Hr.
      apply andb_true_iff in Hr as [Hc _].
      destruct (ascii_dec Regex.dq c) as [<-|]; [discriminate | reflexivity].
  - rewrite app_cons. cbn [oneLine] in Hp. apply andb_true_iff in Hp as [Ha Hp].
    destruct rest as [|c rest].
    + rewrite app_empty_l. destruct tail as [|c t]; [reflexivity|].
      rewrite prefix_cons. cbn [lineBreak] in Ht.
      destruct (ascii_dec a c) as [<-|]; [|reflexivity].
      rewrite Ht in Ha. discriminate.
    + rewrite app_cons, prefix_cons. cbn [lacks] in Hr.
      apply andb_true_iff in Hr as [_ Hr].
      destruct (ascii_dec a c); [apply IH; assumption | reflexivity].
Qed.

Lemma execAll_unquoted (rest tail : string) :
  lacks Regex.dq rest = true -> lineBreak tail = true ->
  Regex.execAll 0 (rest ++ tail) = Regex.execAll 0 tail.
Proof.
  intros Hr Ht. induction rest as [|c rest IH]; [reflexivity|].
  pose proof (prefix_blocked "declare module " (String c rest) tail eq_refl Hr Ht) as Hb.
  rewrite app_cons. cbn [Regex.execAll].
  unfold Regex.matchDeclare, JsString.startsWith.
  change (String.prefix Regex.declareModule (String c (rest ++ tail)))
    with (String.prefix ("declare module " ++ String Regex.dq "") (String c rest ++ tail)).
  rewrite Hb. apply IH. simpl in Hr. apply andb_true_iff in Hr as [_ Hr]. exact Hr.
Qed.

(** One declaration header gives one identifier, whatever was met before;
    the search goes on behind the line. *)
Lemma execAll_declare (id rest tail : string) :
  oneLine id = true -> oneLine rest = true -> lacks Regex.dq rest = true ->
  lineBreak tail = true ->
  Regex.execAll 0 (Regex.declareModule ++ id ++ String Regex.dq (rest ++ tail))
  = id :: Regex.execAll 0 tail.
Proof.
  intros Hid Hrest Hq Ht.
  assert (Hm : Regex.matchDeclare (Regex.declareModule ++ id ++ String Regex.dq (rest ++ tail))
               = Some id).
  { unfold Regex.matchDeclare, JsString.startsWith.
    rewrite prefix_refl_app, drop_app.
    replace (id ++ String Regex.dq (rest ++ tail))
      with ((id ++ String Regex.dq rest) ++ tail)
      by (rewrite app_assoc_s; reflexivity).
    rewrite restOfLine_app; [apply uptoLastQuote_last; assumption | | assumption].
    rewrite oneLine_app. rewrite Hid. simpl. exact Hrest. }
  remember (Regex.declareModule ++ id ++ String Regex.dq (rest ++ tail)) as s eqn:Es.
  destruct s as [|c s']; [discriminate|].
  cbn [Regex.execAll]. rewrite Hm. f_equal.
  change Regex.declareModule with (String "d" ("eclare module " ++ String Regex.dq "")) in Es.
  rewrite app_cons in Es. injection Es as _ ->.
  replace (("eclare module " ++ String Regex.dq "") ++ id ++ String Regex.dq (rest ++ tail))
    with ((("eclare module " ++ String Regex.dq "") ++ id ++ String Regex.dq "") ++ rest ++ tail)
    by (rewrite !app_assoc_s; reflexivity).
  replace (String.length Regex.declareModule + String.length id)
    with (String.length (("eclare module " ++ String Regex.dq "") ++ id ++ String Regex.dq "")).
  - rewrite execAll_skip. apply execAll_unquoted; assumption.
  - rewrite !length_app_s. simpl. lia.
Qed.


(** ** Alias groups *)

Lemma exposesGet_key (l : list (string * string)) (key : string) :
  In key (map fst l) -> exists p, exposesGet l key = Some p.
Proof.
  induction l as [|[k v] l IH]; simpl; [tauto|].
  intros [->|Hin].
  - rewrite String.eqb_refl. eauto.
  - destruct (String.eqb k key); eauto.
Qed.

Lemma keyMatches_spec (cfg : Config) (id key : string) :
  keyMatches cfg id key = true
  <-> exists p u, exposesGet (exposes cfg) key = Some p /\ p = u ++ id.
Proof.
  unfold keyMatches. destruct (exposesGet (exposes cfg) key) as [p|].
  - rewrite endsWith_spec. split.
    + intros [u ->]. eauto.
    + intros (p' & u & [= <-] & ->). eauto.
  - split; [discriminate | intros (p & u & [=] & _)].
Qed.

Lemma aliasGroup_split (cfg : Config) (id : string) (pre post : list string) (key : string) :
  compileKeys cfg = List.app pre (key :: post) ->
  Forall (fun k => keyMatches cfg id k = false) pre ->
  keyMatches cfg id key = true ->
  aliasGroup cfg id = key :: filter (fun k => keyMatches cfg id k = true) post.
Proof.
  intros E Hpre Hkey. unfold aliasGroup. rewrite E, filter_app.
  rewrite filter_cons_True by assumption.
  replace (filter _ pre) with (@nil string); [reflexivity|].
  symmetry. clear E. induction Hpre as [|k pre Hk _ IH]; [reflexivity|].
  rewrite filter_cons_False by congruence. exact IH.
Qed.

Lemma aliasGroup_none (cfg : Config) (id : string) :
  Forall (fun k => keyMatches cfg id k = false) (compileKeys cfg) ->
  aliasGroup cfg id = [].
Proof.
  unfold aliasGroup. induction 1 as [|k l Hk _ IH]; [reflexivity|].
  rewrite filter_cons_False by congruence. exact IH.
Qed.

(** C5: the expose name of an identifier is the first key, in the order
    of the manifest's keys, whose source path ends with the identifier (a
    suffix test, not an equality); when no key qualifies it is the
    identifier itself. *)
Theorem exposeName_first_match (cfg : Config) (id : string) :
  (forall pre key post,
      compileKeys cfg = List.app pre (key :: post) ->
      Forall (fun k => keyMatches cfg id k = false) pre ->
      keyMatches cfg id key = true ->
      exposeName cfg id = key)
  /\ (Forall (fun k => keyMatches cfg id k = false) (compileKeys cfg) ->
      exposeName cfg id = id)
  /\ (forall key, keyMatches cfg id key = true
        <-> exists path u, exposesGet (exposes cfg) key = Some path /\ path = u ++ id).
Proof.
  split; [|split].
  - intros pre key post E Hpre Hkey. unfold exposeName.
    rewrite (aliasGroup_split cfg id pre post key E Hpre Hkey). reflexivity.
  - intros H. unfold exposeName. rewrite aliasGroup_none by assumption. reflexivity.
  - apply keyMatches_spec.
Qed.

Lemma exposeName_first_match_witness :
  exposeName Sample.cfg "Button.ts" = "./Button"
  /\ exposeName Sample.cfg "Card" = "Card"
  /\ keyMatches Sample.cfg "Button.ts" "./Btn" = true.
Proof.
  destruct (exposeName_first_match Sample.cfg "Button.ts") as (Hfirst & _ & Hsuffix).
  destruct (exposeName_first_match Sample.cfg "Card") as (_ & Hnone & _).
  split; [|split].
  - apply (Hfirst [] "./Button" ["./Btn"]); [reflexivity | constructor | reflexivity].
  - apply Hnone. repeat constructor.
  - apply Hsuffix. exists "src/Button.ts", "src/". split; reflexivity.
Defined.

(** ** Manifest search *)

Lemma queueOf_split (base : string) (pre post : list entry) (d : string)
    (children : list entry) :
  Forall (fun e => isManifest e = false /\ queued base e = false) pre ->
  queued base (Dir d children) = true ->
  queueOf base (List.app pre (Dir d children :: post))
  = (Path.join [base; d], children) :: queueOf base post.
Proof.
  intros Hpre Hd. induction Hpre as [|e pre [_ He] _ IH].
  - simpl. simpl in Hd. rewrite Hd. reflexivity.
  - simpl. rewrite He. exact IH.
Qed.

(** C3: in a directory without an entry called federation.config.json the
    search goes down into the first queued directory only; the result is
    the result for that directory, whatever the later siblings hold. *)
Theorem search_first_queued_only (cwd base : string) (pre post : list entry)
    (d : string) (children : list entry) :
  Forall (fun e => isManifest e = false /\ queued base e = false) pre ->
  isManifest (Dir d children) = false ->
  queued base (Dir d children) = true ->
  Forall (fun e => isManifest e = false) post ->
  findFederationConfig cwd base (List.app pre (Dir d children :: post))
  = findFederationConfig cwd (Path.join [base; d]) children.
Proof.
  intros Hpre Hm Hq Hpost.
  rewrite findFederationConfig_eq, scanDir_no_manifest.
  - rewrite app_nil_l, queueOf_split by assumption. reflexivity.
  - apply Forall_app. split.
    + eapply Forall_impl; [exact Hpre | intros e [He _]; exact He].
    + constructor; assumption.
Qed.

Lemma search_first_queued_only_witness :
  findFederationConfig "/p" "./" Sample.lateTree = None.
Proof.
  refine (eq_trans (search_first_queued_only "/p" "./" [File "package.json"]
                      [Dir "pkg" [File "federation.config.json"]] "docs" [] _ _ _ _) _).
  - repeat constructor.
  - reflexivity.
  - reflexivity.
  - repeat constructor.
  - reflexivity.
Defined.


(** ** The monad of the script *)

Section Preserves.

Variable I : gmap string string -> Prop.

Lemma preserves_ret {A} (a : A) : preserves I (ret a).
Proof. intros s H. exact H. Qed.

Lemma preserves_throw {A} (e : exn) : preserves I (@throw A e).
Proof. intros s H. exact H. Qed.

Lemma preserves_exit {A} (c : nat) : preserves I (@processExit A c).
Proof. intros s H. exact H. Qed.

Lemma preserves_bind {A B} (m : M A) (k : A -> M B) :
  preserves I m -> (forall a, preserves I (k a)) -> preserves I (bind m k).
Proof.
  intros Hm Hk s H. unfold bind. specialize (Hm s H).
  destruct (m s) as [[a|c|e] s']; simpl in *; [apply Hk|..]; assumption.
Qed.

Lemma preserves_log (line : string) : preserves I (consoleLog line).
Proof. intros s H. exact H. Qed.

Lemma preserves_error (line : string) : preserves I (consoleError line).
Proof. intros s H. exact H. Qed.

Lemma preserves_exists (p : string) : preserves I (existsSync p).
Proof. intros s H. exact H. Qed.

Lemma preserves_read (p : string) : preserves I (readFileSync p).
Proof. intros s H. unfold readFileSync. destruct (files s !! p); exact H. Qed.

Lemma preserves_setFiles (f : gmap string string -> gmap string string) :
  (forall fs, I fs -> I (f fs)) -> preserves I (setFiles f).
Proof. intros Hf s H. apply Hf, H. Qed.

Lemma preserves_write (p content : string) :
  (forall fs, I fs -> I (<[p := content]> fs)) -> preserves I (writeFileSync p content).
Proof. apply preserves_setFiles. Qed.

Lemma preserves_unlink (p : string) :
  (forall fs, I fs -> I (delete p fs)) -> preserves I (unlinkSync p).
Proof.
  intros Hf s H. unfold unlinkSync. destruct (files s !! p); [apply Hf|]; exact H.
Qed.

Lemma preserves_liftE {A} (r : exn + A) : preserves I (liftE r).
Proof. intros s H. destruct r; exact H. Qed.

Lemma preserves_forEach {A} (l : list A) (f : A -> M unit) :
  (forall x, preserves I (f x)) -> preserves I (forEach l f).
Proof.
  intros Hf. induction l as [|x l IH]; simpl.
  - apply preserves_ret.
  - apply preserves_bind; [apply Hf | intros _; exact IH].
Qed.

Lemma preserves_tryCatch (body : M unit) :
  preserves I body -> preserves I (tryCatch body).
Proof.
  intros Hb s H. unfold tryCatch. specialize (Hb s H).
  destruct (body s) as [[a|c|e] s']; simpl in *; exact Hb.
Qed.

Lemma preserves_removeOutFile (outFile : string) :
  (forall fs, I fs -> I (delete outFile fs)) -> preserves I (removeOutFile outFile).
Proof.
  intros Hd. apply preserves_bind; [apply preserves_exists|].
  intros [|]; [apply preserves_unlink, Hd | apply preserves_ret].
Qed.

Section WithHost.

Variable emit : list string -> string -> gmap string string -> EmitResult.
Variable regexReplace : string -> string -> string -> option string.

Lemma preserves_programEmit (cfg : Config) (outFile : string) :
  (forall fs text, I fs -> I (<[outFile := text]> fs)) ->
  preserves I (programEmit emit cfg outFile).
Proof.
  intros Hw s H. unfold programEmit. simpl.
  destruct (emitted _); [apply Hw|]; exact H.
Qed.

(** The body of the [try] block keeps a property of the files that
    deleting and writing the declaration file, the package descriptor
    step and the index step keep. *)
Lemma preserves_tryBody (env : Env) (cfg : Config) :
  (forall fs, I fs -> I (delete (outFileOf env cfg) fs)) ->
  (forall fs text, I fs -> I (<[outFileOf env cfg := text]> fs)) ->
  preserves I (writePackageJson env) ->
  preserves I (updateIndex (indexPathOf env) (importStatementOf cfg)) ->
  preserves I (tryBody emit regexReplace env cfg).
Proof.
  intros Hd Hw Hp Hi. unfold tryBody.
  apply preserves_bind; [apply preserves_removeOutFile, Hd | intros _].
  apply preserves_bind; [apply preserves_programEmit, Hw | intros r].
  apply preserves_bind; [apply preserves_forEach; intros d; apply preserves_log | intros _].
  apply preserves_bind;
    [destruct (emitSkipped r); [apply preserves_exit | apply preserves_ret] | intros _].
  apply preserves_bind; [apply preserves_read | intros typing].
  apply preserves_bind; [apply preserves_liftE | intros typing'].
  apply preserves_bind; [apply preserves_log | intros _].
  apply preserves_bind; [apply preserves_write; intros fs; apply Hw | intros _].
  apply preserves_bind; [exact Hp | intros _].
  apply preserves_bind; [exact Hi | intros _].
  apply preserves_log.
Qed.

Lemma preserves_script (env : Env) :
  (forall cfg, preserves I (tryBody emit regexReplace env cfg)) ->
  preserves I (script emit regexReplace env).
Proof.
  intros Hb. unfold script.
  destruct (findFederationConfig _ _ _) as [p|].
  - apply preserves_bind; [apply preserves_log | intros _].
    destruct (requireConfig env p) as [cfg|].
    + apply preserves_tryCatch, Hb.
    + apply preserves_throw.
  - apply preserves_bind; [apply preserves_error | intros _]. apply preserves_exit.
Qed.

Lemma run_finalFiles (env : Env) (fs : gmap string string) :
  finalFiles (run emit regexReplace env fs)
  = files (snd (script emit regexReplace env (initial fs))).
Proof.
  unfold run, initial.
  destruct (script emit regexReplace env _) as [[a|c|e] s]; reflexivity.
Qed.

Lemma run_preserves (env : Env) (fs : gmap string string) :
  preserves I (script emit regexReplace env) ->
  I fs -> I (finalFiles (run emit regexReplace env fs)).
Proof. intros Hs H. rewrite run_finalFiles. apply (Hs (initial fs)), H. Qed.

End WithHost.

End Preserves.


(** ** Missing manifest *)

Lemma visited_inv (base : string) (files : list entry) (e : entry) :
  visited base files e ->
  In e files
  \/ exists newBase children rest,
       queueOf base files = (newBase, children) :: rest /\ visited newBase children e.
Proof. intros H. inversion H; subst; eauto 6. Qed.

(** C7: when no entry the search looks at is called
    federation.config.json, the process ends with status 1 and a line
    with the words Unable to find on the error channel; no file is
    touched. *)
Theorem missing_manifest_exit_1
    (emit : list string -> string -> gmap string string -> EmitResult)
    (regexReplace : string -> string -> string -> option string)
    (env : Env) (fs : gmap string string) :
  (forall e, visited "./" (rootListing env) e -> isManifest e = false) ->
  status (run emit regexReplace env fs) = 1
  /\ (exists line, In line (stderr (run emit regexReplace env fs))
                   /\ JsString.includes line "Unable to find" = true)
  /\ finalFiles (run emit regexReplace env fs) = fs.
Proof.
  intros Hv.
  pose proof (findFederationConfig_none (cwd env) _ "./" (rootListing env)
                (Nat.le_refl _) Hv) as Hnone.
  unfold run, script. rewrite Hnone. cbn.
  split; [reflexivity|]. split; [|reflexivity].
  exists notFoundMessage. split; [left; reflexivity | reflexivity].
Qed.

Lemma missing_manifest_exit_1_witness :
  status (run Sample.emitBlob Sample.regexReplace Sample.bareEnv Sample.fs0) = 1
  /\ finalFiles (run Sample.emitBlob Sample.regexReplace Sample.bareEnv Sample.fs0)
     = Sample.fs0.
Proof.
  destruct (missing_manifest_exit_1 Sample.emitBlob Sample.regexReplace
              Sample.bareEnv Sample.fs0) as (Hs & _ & Hf); [|split; assumption].
  intros e H.
  apply visited_inv in H as [H|(nb & ch & rest & Hq & H)].
  - simpl in H. intuition subst; reflexivity.
  - vm_compute in Hq. injection Hq as <- <- <-.
    apply visited_inv in H as [H|(nb & ch & rest & Hq & H)].
    + simpl in H. intuition subst; reflexivity.
    + vm_compute in Hq. discriminate.
Defined.

(** ** Output resolver *)

Lemma getArg_absent (args : list string) (argName : string) :
  ~ In argName args -> getArg args argName = None.
Proof.
  induction args as [|a args IH]; [reflexivity|]. simpl. intros H.
  destruct (String.eqb_spec a argName) as [->|_]; [tauto|]. apply IH. tauto.
Qed.

Lemma getArg_last (pre : list string) (argName : string) :
  ~ In argName pre -> getArg (List.app pre [argName]) argName = None.
Proof.
  induction pre as [|a pre IH]; simpl; intros H.
  - rewrite String.eqb_refl. reflexivity.
  - destruct (String.eqb_spec a argName) as [->|_]; [tauto|]. apply IH. tauto.
Qed.

Lemma script_env_eq
    (emit : list string -> string -> gmap string string -> EmitResult)
    (regexReplace : string -> string -> string -> option string)
    (env env' : Env) :
  cwd env' = cwd env -> dirname env' = dirname env ->
  rootListing env' = rootListing env -> requireConfig env' = requireConfig env ->
  outputDir env' = outputDir env ->
  script emit regexReplace env' = script emit regexReplace env.
Proof.
  intros Hc Hd Hl Hr Ho.
  unfold script, tryBody, writePackageJson, outFileOf, packageJsonPathOf,
    templatePathOf, indexPathOf.
  rewrite Hc, Hd, Hl, Hr, Ho. reflexivity.
Qed.

(** C10: with the flag as the last word of the command line, and nowhere
    before, the lookup of its value gives nothing, the output directory is
    the default one under the shared type declarations, and the run is the
    run of the same command line without the flag. *)
Theorem outputDir_flag_without_value (env : Env) (pre : list string) :
  argv env = List.app pre ["--outputDir"] ->
  ~ In "--outputDir" pre ->
  2 <= List.length pre ->
  outDirArg env = None
  /\ outputDir env
     = Path.resolve (cwd env) [nodeModules env; "@types/__federated_types/"]
  /\ outputDir env = outputDir (withArgv env pre)
  /\ forall emit regexReplace fs,
       run emit regexReplace env fs = run emit regexReplace (withArgv env pre) fs.
Proof.
  intros Hargv Hpre Hlen.
  assert (Harg : outDirArg env = None).
  { unfold outDirArg. rewrite Hargv. apply getArg_last, Hpre. }
  assert (Hnm : nodeModules (withArgv env pre) = nodeModules env).
  { unfold nodeModules. cbn [withArgv argv findNodeModules]. rewrite Hargv.
    rewrite lookup_app_l by lia. reflexivity. }
  assert (Hout : outputDir env = outputDir (withArgv env pre)).
  { unfold outputDir. rewrite Harg. unfold outDirArg at 1.
    cbn [withArgv argv cwd]. rewrite (getArg_absent pre _ Hpre), Hnm. reflexivity. }
  split; [exact Harg|]. split; [unfold outputDir; rewrite Harg; reflexivity|].
  split; [exact Hout|].
  intros emit regexReplace fs. unfold run.
  rewrite (script_env_eq emit regexReplace env (withArgv env pre)); auto.
Qed.

Lemma outputDir_flag_without_value_witness :
  outDirArg Sample.flagEnv = None
  /\ outputDir Sample.flagEnv = "/p/node_modules/@types/__federated_types"
  /\ outputDir Sample.flagEnv = outputDir Sample.env.
Proof.
  destruct (outputDir_flag_without_value Sample.flagEnv (argv Sample.env))
    as (Harg & Hdir & Hsame & _).
  - reflexivity.
  - simpl. intros [H|[H|[]]]; discriminate.
  - simpl. lia.
  - split; [exact Harg|]. split; [rewrite Hdir; reflexivity | exact Hsame].
Defined.


(** ** Paths of the artifacts *)

Lemma outFile_lastChar (env : Env) (cfg : Config) :
  lastChar (outFileOf env cfg) = Some "s"%char.
Proof.
  unfold outFileOf.
  change (name cfg ++ ".d.ts") with (name cfg ++ ".d.t" ++ String "s" "").
  rewrite <- app_assoc_s. apply resolve_lastChar; discriminate.
Qed.

Lemma packageJson_lastChar (env : Env) : lastChar (packageJsonPathOf env) = Some "n"%char.
Proof. apply (resolve_lastChar (cwd env) (outputDir env) "package.jso" "n"); discriminate. Qed.

Lemma template_lastChar (env : Env) : lastChar (templatePathOf env) = Some "n"%char.
Proof.
  apply (resolve_lastChar (cwd env) (dirname env) "typings.package.tmpl.jso" "n");
    discriminate.
Qed.

Lemma index_lastChar (env : Env) : lastChar (indexPathOf env) = Some "s"%char.
Proof. apply (resolve_lastChar (cwd env) (outputDir env) "index.d.t" "s"); discriminate. Qed.

Lemma outFile_neq_packageJson (env : Env) (cfg : Config) :
  outFileOf env cfg <> packageJsonPathOf env.
Proof.
  intros E. apply (f_equal lastChar) in E.
  rewrite outFile_lastChar, packageJson_lastChar in E. discriminate.
Qed.

Lemma outFile_neq_template (env : Env) (cfg : Config) :
  outFileOf env cfg <> templatePathOf env.
Proof.
  intros E. apply (f_equal lastChar) in E.
  rewrite outFile_lastChar, template_lastChar in E. discriminate.
Qed.

Lemma index_neq_packageJson (env : Env) : indexPathOf env <> packageJsonPathOf env.
Proof.
  intros E. apply (f_equal lastChar) in E.
  rewrite index_lastChar, packageJson_lastChar in E. discriminate.
Qed.

Lemma index_neq_template (env : Env) : indexPathOf env <> templatePathOf env.
Proof.
  intros E. apply (f_equal lastChar) in E.
  rewrite index_lastChar, template_lastChar in E. discriminate.
Qed.

(** ** Publisher *)

(** What the index step leaves in the files. *)
Lemma updateIndex_files (indexPath importStatement : string) (s : State) :
  files (snd (updateIndex indexPath importStatement s))
  = match files s !! indexPath with
    | None => <[indexPath := importStatement ++ nl]> (files s)
    | Some contents =>
        if JsString.includes contents importStatement then files s
        else <[indexPath := contents ++ importStatement ++ nl]> (files s)
    end.
Proof.
  unfold updateIndex, bind, existsSync, readFileSync, consoleLog, writeFileSync,
    setFiles, ret.
  cbn [fst snd files].
  destruct (files s !! indexPath) as [contents|] eqn:E.
  - rewrite bool_decide_eq_true_2 by eauto. cbn [negb files]. rewrite E.
    destruct (JsString.includes contents importStatement); reflexivity.
  - rewrite bool_decide_eq_false_2 by (intros [? ?]; discriminate). reflexivity.
Qed.

(** The index step changes the index file only. *)
Lemma preserves_updateIndex (I : gmap string string -> Prop)
    (indexPath importStatement : string) :
  (forall fs content, I fs -> I (<[indexPath := content]> fs)) ->
  preserves I (updateIndex indexPath importStatement).
Proof.
  intros Hw s H. rewrite updateIndex_files.
  destruct (files s !! indexPath) as [contents|]; [|apply Hw, H].
  destruct (JsString.includes contents importStatement); [exact H | apply Hw, H].
Qed.

(** After the index step the index holds the line. *)
Lemma updateIndex_includes (indexPath importStatement : string) (s : State) :
  exists contents,
    files (snd (updateIndex indexPath importStatement s)) !! indexPath = Some contents
    /\ JsString.includes contents importStatement = true.
Proof.
  rewrite updateIndex_files.
  destruct (files s !! indexPath) as [contents|] eqn:E.
  - destruct (JsString.includes contents importStatement) eqn:Hinc.
    + exists contents. auto.
    + exists (contents ++ importStatement ++ nl). rewrite lookup_insert_eq.
      split; [reflexivity | apply includes_mid].
  - exists (importStatement ++ nl). rewrite lookup_insert_eq.
    split; [reflexivity | apply (includes_mid "")].
Qed.

(** The package descriptor step writes one file at most: the copy of the
    template, when the output directory is under the shared type
    declarations and the descriptor is not there yet. *)
Lemma preserves_writePackageJson (I : gmap string string -> Prop) (env : Env) :
  (forall fs content,
      JsString.includes (outputDir env) "node_modules/@types" = true ->
      fs !! packageJsonPathOf env = None ->
      fs !! templatePathOf env = Some content ->
      I fs -> I (<[packageJsonPathOf env := content]> fs)) ->
  preserves I (writePackageJson env).
Proof.
  intros Hw s H. unfold writePackageJson.
  change (Path.join ["node_modules"; "@types"]) with "node_modules/@types".
  destruct (JsString.includes (outputDir env) "node_modules/@types") eqn:Hinc; [|exact H].
  unfold bind, existsSync, copyFileSync, bind, readFileSync, consoleLog,
    writeFileSync, setFiles. cbn [fst snd files].
  destruct (files s !! packageJsonPathOf env) as [c|] eqn:Hpj.
  - rewrite bool_decide_eq_true_2 by eauto. exact H.
  - rewrite bool_decide_eq_false_2 by (intros [? ?]; discriminate). cbn [negb files].
    destruct (files s !! templatePathOf env) as [content|] eqn:Ht;
      cbn [fst snd files]; [|exact H].
    apply Hw; auto.
Qed.

Section Publisher.

Variable emit : list string -> string -> gmap string string -> EmitResult.
Variable regexReplace : string -> string -> string -> option string.

(** A run that finds and loads a manifest keeps a property of the files
    that the [try] block keeps for that manifest. *)
Lemma preserves_script_loaded (I : gmap string string -> Prop) (env : Env) :
  (forall p cfg,
      findFederationConfig (cwd env) "./" (rootListing env) = Some p ->
      requireConfig env p = Some cfg ->
      preserves I (tryBody emit regexReplace env cfg)) ->
  preserves I (script emit regexReplace env).
Proof.
  intros Hb. unfold script.
  destruct (findFederationConfig _ _ _) as [p|] eqn:Hp.
  - apply preserves_bind; [apply preserves_log | intros _].
    destruct (requireConfig env p) as [cfg|] eqn:Hc.
    + apply preserves_tryCatch, (Hb p cfg); auto.
    + apply preserves_throw.
  - apply preserves_bind; [apply preserves_error | intros _]. apply preserves_exit.
Qed.

(** C6: the index step appends the line only when the index does not
    hold it yet, so a second update changes nothing; and a run on files
    whose index holds the line leaves the index as it is. *)
Theorem index_update_idempotent :
  (forall (indexPath importStatement : string) (s : State),
      let s1 := snd (updateIndex indexPath importStatement s) in
      let s2 := snd (updateIndex indexPath importStatement s1) in
      files s1
      = match files s !! indexPath with
        | None => <[indexPath := importStatement ++ nl]> (files s)
        | Some contents =>
            if JsString.includes contents importStatement then files s
            else <[indexPath := contents ++ importStatement ++ nl]> (files s)
        end
      /\ files s2 = files s1)
  /\ (forall (env : Env) (p : string) (cfg : Config) (fs : gmap string string)
             (contents : string),
        findFederationConfig (cwd env) "./" (rootListing env) = Some p ->
        requireConfig env p = Some cfg ->
        outFileOf env cfg <> indexPathOf env ->
        fs !! indexPathOf env = Some contents ->
        JsString.includes contents (importStatementOf cfg) = true ->
        finalFiles (run emit regexReplace env fs) !! indexPathOf env = Some contents).
Proof.
  split.
  - intros indexPath importStatement s s1 s2.
    split; [apply updateIndex_files|].
    subst s2. rewrite updateIndex_files.
    destruct (updateIndex_includes indexPath importStatement s) as (c & Hc & Hinc).
    fold s1 in Hc. rewrite Hc, Hinc. reflexivity.
  - intros env p cfg fs contents Hp Hcfg Hne Hfs Hinc.
    apply (run_preserves (fun fs' => fs' !! indexPathOf env = Some contents));
      [|exact Hfs].
    apply preserves_script_loaded. intros p' cfg' Hp' Hcfg'.
    assert (cfg' = cfg) as -> by congruence.
    apply preserves_tryBody.
    + intros fs' H. rewrite lookup_delete_ne; assumption.
    + intros fs' text H. rewrite lookup_insert_ne; assumption.
    + apply preserves_writePackageJson. intros fs' content _ _ _ H.
      rewrite lookup_insert_ne; [exact H|].
      intros E. exact (index_neq_packageJson env (eq_sym E)).
    + intros s H. rewrite updateIndex_files, H, Hinc. exact H.
Qed.

End Publisher.


Section Descriptor.

Variable emit : list string -> string -> gmap string string -> EmitResult.
Variable regexReplace : string -> string -> string -> option string.

(** C8: a package descriptor that is there before the run has the same
    contents after it; one that appears during the run is the copy of the
    bundled template, and the output directory is then under the shared
    type declarations. *)
Theorem package_json_never_overwritten (env : Env) (fs : gmap string string) :
  (forall content,
      fs !! packageJsonPathOf env = Some content ->
      finalFiles (run emit regexReplace env fs) !! packageJsonPathOf env = Some content)
  /\ (fs !! packageJsonPathOf env = None ->
      is_Some (finalFiles (run emit regexReplace env fs) !! packageJsonPathOf env) ->
      JsString.includes (outputDir env) "node_modules/@types" = true
      /\ finalFiles (run emit regexReplace env fs) !! packageJsonPathOf env
         = fs !! templatePathOf env).
Proof.
  split.
  - intros content Hfs.
    apply (run_preserves (fun fs' => fs' !! packageJsonPathOf env = Some content));
      [|exact Hfs].
    apply preserves_script. intros cfg. apply preserves_tryBody.
    + intros fs' H. rewrite lookup_delete_ne; [exact H | apply outFile_neq_packageJson].
    + intros fs' text H. rewrite lookup_insert_ne; [exact H | apply outFile_neq_packageJson].
    + apply preserves_writePackageJson. intros fs' c _ Hnone _ H. congruence.
    + apply preserves_updateIndex. intros fs' c H.
      rewrite lookup_insert_ne; [exact H | apply index_neq_packageJson].
  - intros Hfs Hsome.
    pose (I := fun fs' : gmap string string =>
                 fs' !! templatePathOf env = fs !! templatePathOf env
                 /\ (fs' !! packageJsonPathOf env = None
                     \/ (JsString.includes (outputDir env) "node_modules/@types" = true
                         /\ fs' !! packageJsonPathOf env = fs !! templatePathOf env))).
    assert (HI : I (finalFiles (run emit regexReplace env fs))).
    { apply run_preserves; [|split; auto].
      apply preserves_script. intros cfg. apply preserves_tryBody.
      - intros fs' [Ht Hp]. split.
        + rewrite lookup_delete_ne; [exact Ht | apply outFile_neq_template].
        + rewrite lookup_delete_ne; [exact Hp | apply outFile_neq_packageJson].
      - intros fs' text [Ht Hp]. split.
        + rewrite lookup_insert_ne; [exact Ht | apply outFile_neq_template].
        + rewrite lookup_insert_ne; [exact Hp | apply outFile_neq_packageJson].
      - apply preserves_writePackageJson. intros fs' c Hinc Hnone Htmpl [Ht Hp]. split.
        + destruct (decide (packageJsonPathOf env = templatePathOf env)) as [E|Hne].
          * rewrite E, lookup_insert_eq, <- Ht, Htmpl. reflexivity.
          * rewrite lookup_insert_ne; assumption.
        + right. split; [exact Hinc|]. rewrite lookup_insert_eq, <- Ht, Htmpl. reflexivity.
      - apply preserves_updateIndex. intros fs' c [Ht Hp]. split.
        + rewrite lookup_insert_ne; [exact Ht | apply index_neq_template].
        + rewrite lookup_insert_ne; [exact Hp | apply index_neq_packageJson]. }
    destruct HI as [_ [Hnone|HI]]; [|exact HI].
    rewrite Hnone in Hsome. destruct Hsome as [? ?]. discriminate.
Qed.

End Descriptor.

(** ** Emission *)

Lemma removeOutFile_eq (outFile : string) (s : State) :
  removeOutFile outFile s
  = (Value tt, {| files := delete outFile (files s); out := out s; err := err s |}).
Proof.
  unfold removeOutFile, bind, existsSync, unlinkSync, setFiles, ret.
  destruct (files s !! outFile) as [c|] eqn:E.
  - rewrite bool_decide_eq_true_2 by eauto. rewrite E. reflexivity.
  - rewrite bool_decide_eq_false_2 by (intros [? ?]; discriminate).
    rewrite delete_id by assumption. destruct s; reflexivity.
Qed.

Lemma forEach_reportDiagnostic (ds : list Diagnostic) (s : State) :
  forEach ds reportDiagnostic s
  = (Value tt, {| files := files s;
                  out := List.app (out s) (map diagnosticLine ds);
                  err := err s |}).
Proof.
  revert s. induction ds as [|d ds IH]; intros s.
  - simpl. rewrite app_nil_r. destruct s; reflexivity.
  - simpl. unfold bind at 1. unfold reportDiagnostic at 1, consoleLog at 1.
    rewrite IH. cbn [files out err]. rewrite <- app_assoc. reflexivity.
Qed.

Section Emission.

Variable emit : list string -> string -> gmap string string -> EmitResult.
Variable regexReplace : string -> string -> string -> option string.

(** The [try] block up to the test of [emitSkipped]. *)
Lemma tryBody_emit (env : Env) (cfg : Config) (s : State) :
  tryBody emit regexReplace env cfg s
  = afterEmit regexReplace env cfg
      (emit (compileFiles cfg) (outFileOf env cfg) (delete (outFileOf env cfg) (files s)))
      {| files := emittedFiles emit env cfg (files s);
         out := List.app (out s)
                  (map diagnosticLine
                     (diagnostics (emit (compileFiles cfg) (outFileOf env cfg)
                                     (delete (outFileOf env cfg) (files s)))));
         err := err s |}.
Proof.
  unfold tryBody, afterEmit.
  unfold bind at 1. rewrite removeOutFile_eq.
  unfold bind at 1. unfold programEmit at 1. cbn [files out err].
  unfold bind at 1. rewrite forEach_reportDiagnostic. reflexivity.
Qed.

Lemma afterEmit_missing (env : Env) (cfg : Config) (r : EmitResult) (s : State) :
  emitSkipped r = false ->
  files s !! outFileOf env cfg = None ->
  afterEmit regexReplace env cfg r s = (Thrown (ENOENT (outFileOf env cfg)), s).
Proof.
  intros Hskip Hnone. unfold afterEmit. rewrite Hskip.
  unfold bind at 1. unfold ret at 1. unfold bind at 1. unfold readFileSync at 1.
  rewrite Hnone. reflexivity.
Qed.

Lemma script_loaded (env : Env) (p : string) (cfg : Config) (s : State) :
  findFederationConfig (cwd env) "./" (rootListing env) = Some p ->
  requireConfig env p = Some cfg ->
  script emit regexReplace env s
  = tryCatch (tryBody emit regexReplace env cfg)
      {| files := files s;
         out := List.app (out s) ["Using config file: " ++ p];
         err := err s |}.
Proof. intros Hp Hc. unfold script. rewrite Hp. unfold bind, consoleLog. rewrite Hc. reflexivity. Qed.

(** A run in which the engine reports that emission was skipped. *)
Lemma run_skipped (env : Env) (p : string) (cfg : Config) (fs : gmap string string) :
  findFederationConfig (cwd env) "./" (rootListing env) = Some p ->
  requireConfig env p = Some cfg ->
  emitSkipped (emit (compileFiles cfg) (outFileOf env cfg) (delete (outFileOf env cfg) fs))
  = true ->
  status (run emit regexReplace env fs) = 0
  /\ finalFiles (run emit regexReplace env fs) = emittedFiles emit env cfg fs.
Proof.
  intros Hp Hc Hskip. unfold run.
  rewrite (script_loaded env p cfg _ Hp Hc). unfold tryCatch.
  rewrite tryBody_emit. cbn [files out err initial].
  unfold afterEmit. rewrite Hskip. unfold bind at 1. unfold processExit at 1.
  split; reflexivity.
Qed.

Lemma emittedFiles_outFile (env : Env) (cfg : Config) (fs : gmap string string) :
  emittedFiles emit env cfg fs !! outFileOf env cfg
  = emitted (emit (compileFiles cfg) (outFileOf env cfg) (delete (outFileOf env cfg) fs)).
Proof.
  unfold emittedFiles. destruct (emitted _).
  - apply lookup_insert_eq.
  - apply lookup_delete_eq.
Qed.

Lemma emittedFiles_other (env : Env) (cfg : Config) (fs : gmap string string) (q : string) :
  q <> outFileOf env cfg -> emittedFiles emit env cfg fs !! q = fs !! q.
Proof.
  intros Hq. unfold emittedFiles. destruct (emitted _).
  - rewrite lookup_insert_ne, lookup_delete_ne by congruence. reflexivity.
  - rewrite lookup_delete_ne by congruence. reflexivity.
Qed.

Lemma emittedFiles_delete (env : Env) (cfg : Config) (fs : gmap string string) :
  emittedFiles emit env cfg (delete (outFileOf env cfg) fs) = emittedFiles emit env cfg fs.
Proof. unfold emittedFiles. rewrite delete_delete_eq. reflexivity. Qed.

(** C2, as the code has it: when the engine reports that emission was
    skipped the run ends with status 0 and the script writes no file; the
    previous declaration file has been deleted, so the target path holds
    what the engine itself wrote there, if anything, and every other file
    is as before. *)
Theorem emission_skipped_exit_0 (env : Env) (p : string) (cfg : Config)
    (fs : gmap string string) :
  findFederationConfig (cwd env) "./" (rootListing env) = Some p ->
  requireConfig env p = Some cfg ->
  emitSkipped (emit (compileFiles cfg) (outFileOf env cfg) (delete (outFileOf env cfg) fs))
  = true ->
  status (run emit regexReplace env fs) = 0
  /\ finalFiles (run emit regexReplace env fs) !! outFileOf env cfg
     = emitted (emit (compileFiles cfg) (outFileOf env cfg)
                  (delete (outFileOf env cfg) fs))
  /\ forall q, q <> outFileOf env cfg ->
       finalFiles (run emit regexReplace env fs) !! q = fs !! q.
Proof.
  intros Hp Hc Hskip. destruct (run_skipped env p cfg fs Hp Hc Hskip) as [Hs Hf].
  split; [exact Hs|]. rewrite Hf. split.
  - apply emittedFiles_outFile.
  - intros q Hq. apply emittedFiles_other, Hq.
Qed.

Lemma run_delete (env : Env) (p : string) (cfg : Config) (fs : gmap string string) :
  findFederationConfig (cwd env) "./" (rootListing env) = Some p ->
  requireConfig env p = Some cfg ->
  run emit regexReplace env fs
  = run emit regexReplace env (delete (outFileOf env cfg) fs).
Proof.
  intros Hp Hc. unfold run.
  rewrite !(script_loaded env p cfg _ Hp Hc). unfold tryCatch.
  rewrite !tryBody_emit. cbn [files out err initial].
  rewrite emittedFiles_delete, delete_delete_eq. reflexivity.
Qed.

End Emission.

(** The engine is run on files without the target path only. *)
Lemma run_engine_agree
    (emit emit' : list string -> string -> gmap string string -> EmitResult)
    (regexReplace : string -> string -> string -> option string)
    (env : Env) (p : string) (cfg : Config) (fs : gmap string string) :
  findFederationConfig (cwd env) "./" (rootListing env) = Some p ->
  requireConfig env p = Some cfg ->
  (forall files',
      files' !! outFileOf env cfg = None ->
      emit' (compileFiles cfg) (outFileOf env cfg) files'
      = emit (compileFiles cfg) (outFileOf env cfg) files') ->
  run emit' regexReplace env fs = run emit regexReplace env fs.
Proof.
  intros Hp Hc Hagree. unfold run.
  rewrite !(script_loaded _ _ env p cfg _ Hp Hc). unfold tryCatch.
  rewrite !tryBody_emit. unfold emittedFiles. cbn [files out err initial].
  rewrite Hagree by apply lookup_delete_eq. reflexivity.
Qed.

(** C9: a run that reaches the emission stage deletes the previous
    declaration file before the engine runs: the run is the same as on the
    files without it, and the engine only ever sees files without it.  When
    the run then ends early, on a skipped emission or on the exception for
    the missing output, the target path holds what the engine wrote, and
    nothing if it wrote nothing. *)
Theorem previous_declaration_removed
    (emit : list string -> string -> gmap string string -> EmitResult)
    (regexReplace : string -> string -> string -> option string)
    (env : Env) (p : string) (cfg : Config) (fs : gmap string string) :
  findFederationConfig (cwd env) "./" (rootListing env) = Some p ->
  requireConfig env p = Some cfg ->
  run emit regexReplace env fs = run emit regexReplace env (delete (outFileOf env cfg) fs)
  /\ (forall emit',
        (forall files',
            files' !! outFileOf env cfg = None ->
            emit' (compileFiles cfg) (outFileOf env cfg) files'
            = emit (compileFiles cfg) (outFileOf env cfg) files') ->
        run emit' regexReplace env fs = run emit regexReplace env fs)
  /\ (emitSkipped (emit (compileFiles cfg) (outFileOf env cfg)
                     (delete (outFileOf env cfg) fs)) = true ->
      status (run emit regexReplace env fs) = 0
      /\ finalFiles (run emit regexReplace env fs) !! outFileOf env cfg
         = emitted (emit (compileFiles cfg) (outFileOf env cfg)
                      (delete (outFileOf env cfg) fs)))
  /\ (emitSkipped (emit (compileFiles cfg) (outFileOf env cfg)
                     (delete (outFileOf env cfg) fs)) = false ->
      emitted (emit (compileFiles cfg) (outFileOf env cfg)
                 (delete (outFileOf env cfg) fs)) = None ->
      status (run emit regexReplace env fs) = 1
      /\ finalFiles (run emit regexReplace env fs) !! outFileOf env cfg = None).
Proof.
  intros Hp Hc. split; [apply (run_delete _ _ env p cfg fs Hp Hc)|].
  split; [intros emit' Hagree; apply (run_engine_agree _ _ _ env p cfg fs Hp Hc Hagree)|].
  split.
  - intros Hskip. destruct (run_skipped emit regexReplace env p cfg fs Hp Hc Hskip) as [Hs Hf].
    split; [exact Hs|]. rewrite Hf. apply emittedFiles_outFile.
  - intros Hskip Hnone. unfold run.
    rewrite (script_loaded _ _ env p cfg _ Hp Hc). unfold tryCatch.
    rewrite tryBody_emit. cbn [files out err initial].
    pose proof (emittedFiles_outFile emit env cfg fs) as Hlook. rewrite Hnone in Hlook.
    rewrite afterEmit_missing by assumption.
    split; [reflexivity | exact Hlook].
Qed.


(** ** Identifier rewriter *)

Lemma simplePattern_quoted (id : string) :
  Regex.simplePattern (Regex.quoted id) = Regex.simplePattern id.
Proof.
  unfold Regex.quoted. cbn [Regex.simplePattern].
  rewrite simplePattern_app. cbn. rewrite andb_true_r. reflexivity.
Qed.

Lemma simpleReplacement_quoted (r : string) :
  Regex.simpleReplacement (Regex.quoted r) = Regex.simpleReplacement r.
Proof.
  unfold Regex.quoted. cbn [Regex.simpleReplacement]. cbn [Ascii.eqb Bool.eqb Regex.dq negb andb].
  induction r as [|c r IH]; [reflexivity|].
  rewrite app_cons. cbn [Regex.simpleReplacement]. rewrite IH. reflexivity.
Qed.

Lemma header_eq (id x : string) :
  Regex.declareModule ++ id ++ String Regex.dq x
  = "declare module " ++ Regex.quoted id ++ x.
Proof.
  unfold Regex.declareModule, Regex.quoted.
  rewrite !app_assoc_s, !app_cons, !app_empty_l, app_assoc_s, app_cons, app_empty_l.
  reflexivity.
Qed.

Lemma hostRegex_sample : HostRegex Sample.regexReplace.
Proof. intros p r s _ Hp Hr. unfold Sample.regexReplace. rewrite Hp, Hr. reflexivity. Qed.

(** The declaration header of [id] becomes the header of its public
    name. *)
Lemma replaceAll_header (id r content : string) :
  Regex.simplePattern id = true ->
  Regex.replaceAll (Regex.quoted id) r ("declare module " ++ Regex.quoted id ++ content)
  = "declare module " ++ r ++ Regex.replaceAll (Regex.quoted id) r content.
Proof.
  intros Hid. unfold Regex.quoted at 1 3.
  rewrite replaceAll_unquoted by reflexivity. f_equal.
  apply replaceAll_match. fold (Regex.quoted id). rewrite simplePattern_quoted. exact Hid.
Qed.

Section Rewriter.

Variable regexReplace : string -> string -> string -> option string.
Hypothesis host : HostRegex regexReplace.

Lemma rewriteNames_app (cfg : Config) (typing : string) (ids1 ids2 : list string) :
  rewriteNames regexReplace cfg typing (List.app ids1 ids2)
  = match rewriteNames regexReplace cfg typing ids1 with
    | inl e => inl e
    | inr typing' => rewriteNames regexReplace cfg typing' ids2
    end.
Proof.
  revert typing. induction ids1 as [|id ids1 IH]; intros typing; [reflexivity|].
  simpl. destruct (rewriteName regexReplace cfg typing id); [reflexivity | apply IH].
Qed.

(** One step of the rewriter for an identifier with a simple source. *)
Lemma rewriteName_simple (cfg : Config) (typing id : string) :
  Regex.simplePattern id = true ->
  Regex.simpleReplacement (getModuleDeclareName cfg (exposeName cfg id)) = true ->
  rewriteName regexReplace cfg typing id
  = inr (JsString.join nl
           (Regex.replaceAll (Regex.quoted id)
              (Regex.quoted (getModuleDeclareName cfg (exposeName cfg id))) typing
            :: map (createAliasModule cfg (getModuleDeclareName cfg (exposeName cfg id)))
                 (aliases cfg id))).
Proof.
  intros Hid Hr. unfold rewriteName. rewrite host; [reflexivity | | |].
  - discriminate.
  - rewrite simplePattern_quoted. exact Hid.
  - rewrite simpleReplacement_quoted. exact Hr.
Qed.



End Rewriter.


(** ** The properties on the sample inputs *)





Lemma emission_skipped_exit_0_witness :
  status (run Sample.emitSkip Sample.regexReplace Sample.env Sample.fs0) = 0
  /\ finalFiles (run Sample.emitSkip Sample.regexReplace Sample.env Sample.fs0)
       !! Sample.outFile = None
  /\ finalFiles (run Sample.emitSkip Sample.regexReplace Sample.env Sample.fs0)
       !! Sample.packageJson = Some "custom".
Proof.
  destruct (emission_skipped_exit_0 Sample.emitSkip Sample.regexReplace Sample.env
              Sample.manifestPath Sample.cfg Sample.fs0)
    as (Hs & Hout & Hother); [reflexivity..|].
  split; [exact Hs|]. split; [exact Hout|].
  rewrite (Hother Sample.packageJson); [reflexivity | discriminate].
Defined.

(** With a declaration file from an earlier run and an engine that skips
    emission, the run ends with status 0 and the earlier file is gone. *)
Lemma emission_skip_deletes_declaration :
  emitSkipped (Sample.emitSkip (compileFiles Sample.cfg) Sample.outFile
                 (delete Sample.outFile Sample.fs0)) = true
  /\ Sample.fs0 !! Sample.outFile = Some "old"
  /\ finalFiles (run Sample.emitSkip Sample.regexReplace Sample.env Sample.fs0)
       !! Sample.outFile = None
  /\ ~ SkipTouchesNoDeclaration Sample.emitSkip Sample.regexReplace Sample.env Sample.fs0.
Proof.
  assert (Hgone : finalFiles (run Sample.emitSkip Sample.regexReplace Sample.env Sample.fs0)
                    !! Sample.outFile = None) by reflexivity.
  split; [reflexivity|]. split; [reflexivity|]. split; [exact Hgone|].
  intros [_ H]. specialize (H Sample.outFile eq_refl).
  rewrite Hgone in H. discriminate.
Qed.

Lemma previous_declaration_removed_witness :
  run Sample.emitSkip Sample.regexReplace Sample.env Sample.fs0
  = run Sample.emitSkip Sample.regexReplace Sample.env (delete Sample.outFile Sample.fs0)
  /\ finalFiles (run Sample.emitSkip Sample.regexReplace Sample.env Sample.fs0)
       !! Sample.outFile = None.
Proof.
  destruct (previous_declaration_removed Sample.emitSkip Sample.regexReplace Sample.env
              Sample.manifestPath Sample.cfg Sample.fs0)
    as (Hsame & _ & Hskip & _); [reflexivity..|].
  split; [exact Hsame|]. destruct Hskip as [_ Hout]; [reflexivity | exact Hout].
Defined.

Lemma package_json_never_overwritten_witness :
  finalFiles (run Sample.emitBlob Sample.regexReplace Sample.env Sample.fs0)
    !! Sample.packageJson = Some "custom".
Proof.
  destruct (package_json_never_overwritten Sample.emitBlob Sample.regexReplace
              Sample.env Sample.fs0) as [Hkeep _].
  apply (Hkeep "custom"). reflexivity.
Defined.

Lemma index_update_idempotent_witness :
  finalFiles (run Sample.emitBlob Sample.regexReplace Sample.env Sample.fs1)
    !! Sample.indexFile
  = Some ("export * from './lib';" ++ nl ++ "export * from './app';" ++ nl).
Proof.
  destruct (index_update_idempotent Sample.emitBlob Sample.regexReplace) as [_ Hrun].
  apply (Hrun Sample.env Sample.manifestPath Sample.cfg Sample.fs1); try reflexivity.
  discriminate.
Defined.


(** * Further properties of the script *)

(** ** Command line *)

Lemma getArg_value (pre rest : list string) (argName value : string) :
  ~ In argName pre ->
  getArg (List.app pre (argName :: value :: rest)) argName = Some value.
Proof.
  intros Hpre. induction pre as [|a pre IH]; simpl.
  - rewrite String.eqb_refl. reflexivity.
  - destruct (String.eqb_spec a argName) as [->|_]; [simpl in Hpre; tauto|].
    apply IH. simpl in Hpre. tauto.
Qed.

(** X1: [getArg] gives the word that follows the first occurrence of the
    flag, whatever comes later on the command line, and nothing when the
    flag does not occur. *)
Theorem getArg_first_occurrence (args : list string) (argName : string) :
  (forall pre value rest,
      args = List.app pre (argName :: value :: rest) ->
      ~ In argName pre ->
      getArg args argName = Some value)
  /\ (~ In argName args -> getArg args argName = None).
Proof.
  split.
  - intros pre value rest -> Hpre. apply getArg_value, Hpre.
  - apply getArg_absent.
Qed.

Lemma getArg_first_occurrence_witness :
  getArg ["node"; "cli.js"; "--outputDir"; "a"; "--outputDir"; "b"] "--outputDir" = Some "a"
  /\ getArg ["node"; "cli.js"; "--verbose"] "--outputDir" = None.
Proof.
  split.
  - destruct (getArg_first_occurrence
                ["node"; "cli.js"; "--outputDir"; "a"; "--outputDir"; "b"] "--outputDir")
      as [Hvalue _].
    apply (Hvalue ["node"; "cli.js"] "a" ["--outputDir"; "b"]); [reflexivity|].
    simpl. intros [H|[H|[]]]; discriminate.
  - destruct (getArg_first_occurrence ["node"; "cli.js"; "--verbose"] "--outputDir")
      as [_ Hnone].
    apply Hnone. simpl. intros [H|[H|[H|[]]]]; discriminate.
Defined.

Lemma gather_absolute (cwd : string) (revArgs : list string) :
  Path.isAbsolute cwd = true -> snd (Path.gather cwd revArgs) = true.
Proof.
  intros Hcwd. induction revArgs as [|p more IH]; simpl.
  - destruct cwd; [discriminate|]. exact Hcwd.
  - destruct (JsString.truthy p); simpl; [|exact IH].
    destruct (Path.isAbsolute p); [reflexivity|].
    destruct (Path.gather cwd more) as [r a]. exact IH.
Qed.

Lemma resolve_absolute (cwd : string) (args : list string) :
  Path.isAbsolute cwd = true -> Path.isAbsolute (Path.resolve cwd args) = true.
Proof.
  intros Hcwd. unfold Path.resolve.
  pose proof (gather_absolute cwd (rev args) Hcwd) as Hg.
  destruct (Path.gather cwd (rev args)) as [r a]. simpl in Hg. subst a. reflexivity.
Qed.

(** X2: a value given for the flag, when it is not the empty text, is
    resolved against the working directory and becomes the output
    directory; an absolute value is used without regard to the working
    directory, and the empty text counts as no value. *)
Theorem outputDir_from_flag (env : Env) (pre rest : list string) (value : string) :
  argv env = List.app pre ("--outputDir" :: value :: rest) ->
  ~ In "--outputDir" pre ->
  (JsString.truthy value = true ->
     outputDir env = Path.resolve (cwd env) ["./"; value])
  /\ (Path.isAbsolute value = true ->
     outputDir env = "/" ++ Path.normalizeString (value ++ "/") false)
  /\ (value = "" ->
     outputDir env
     = Path.resolve (cwd env) [nodeModules env; "@types/__federated_types/"]).
Proof.
  intros Hargv Hpre.
  assert (Harg : outDirArg env = Some value).
  { unfold outDirArg. rewrite Hargv. apply getArg_value, Hpre. }
  unfold outputDir. rewrite Harg. split; [|split].
  - intros ->. reflexivity.
  - intros Habs. destruct value as [|c value]; [discriminate|].
    cbn [JsString.truthy]. unfold Path.resolve. cbn [rev List.app Path.gather JsString.truthy negb].
    rewrite Habs. reflexivity.
  - intros ->. reflexivity.
Qed.

Lemma outputDir_from_flag_witness :
  outputDir Cases.valueEnv = "/p/dist/types"
  /\ outputDir Cases.emptyValueEnv = "/p/node_modules/@types/__federated_types".
Proof.
  split.
  - destruct (outputDir_from_flag Cases.valueEnv
                ["/usr/bin/node"; "/p/node_modules/federated-types/cli.js"] [] "dist/types")
      as (Hvalue & _ & _).
    + reflexivity.
    + simpl. intros [H|[H|[]]]; discriminate.
    + rewrite Hvalue; reflexivity.
  - destruct (outputDir_from_flag Cases.emptyValueEnv
                ["/usr/bin/node"; "/p/node_modules/federated-types/cli.js"] [] "")
      as (_ & _ & Hempty).
    + reflexivity.
    + simpl. intros [H|[H|[]]]; discriminate.
    + rewrite Hempty; reflexivity.
Defined.

(** X3: the run depends on the command line through the script path and
    the value of the flag only; all other words are ignored. *)
Theorem other_arguments_ignored
    (emit : list string -> string -> gmap string string -> EmitResult)
    (regexReplace : string -> string -> string -> option string)
    (env : Env) (args : list string) (fs : gmap string string) :
  args !! 1%nat = argv env !! 1%nat ->
  getArg args "--outputDir" = getArg (argv env) "--outputDir" ->
  run emit regexReplace (withArgv env args) fs = run emit regexReplace env fs.
Proof.
  intros Hscript Hflag. unfold run.
  rewrite (script_env_eq emit regexReplace env (withArgv env args)); auto.
  unfold outputDir, outDirArg, nodeModules. cbn [withArgv argv cwd findNodeModules].
  rewrite Hscript, Hflag. reflexivity.
Qed.

Lemma other_arguments_ignored_witness :
  run Sample.emitBlob Sample.regexReplace Cases.verboseEnv Sample.fs0
  = run Sample.emitBlob Sample.regexReplace Sample.env Sample.fs0.
Proof.
  apply (other_arguments_ignored Sample.emitBlob Sample.regexReplace Sample.env
           ["/usr/bin/node"; "/p/node_modules/federated-types/cli.js"; "--verbose"]);
    reflexivity.
Defined.

(** ** Manifest search, further *)

Lemma first_manifest_split (files : list entry) :
  (exists e, In e files /\ isManifest e = true) ->
  exists pre e post,
    files = List.app pre (e :: post)
    /\ Forall (fun x => isManifest x = false) pre /\ isManifest e = true.
Proof.
  induction files as [|x files IH]; intros (e & Hin & He); [destruct Hin|].
  destruct (isManifest x) eqn:Hx.
  - exists [], x, files. auto.
  - destruct IH as (pre & e' & post & -> & Hpre & He').
    + destruct Hin as [->|Hin]; [congruence | eauto].
    + exists (x :: pre), e', post. auto.
Qed.

(** X4: an entry called federation.config.json in a listing is the
    result for that listing, also when directories come before it: the
    whole listing is looked at before any directory is entered. *)
Theorem manifest_in_listing_found (cwd base : string) (files : list entry) :
  (exists e, In e files /\ isManifest e = true) ->
  findFederationConfig cwd base files
  = Some (Path.resolve cwd ["./"; Path.join [base; manifestName]]).
Proof.
  intros H. destruct (first_manifest_split files H) as (pre & e & post & -> & Hpre & He).
  rewrite findFederationConfig_eq, (scanDir_manifest cwd base pre post e [] Hpre He).
  unfold isManifest in He. apply String.eqb_eq in He. rewrite He. reflexivity.
Qed.

Lemma manifest_in_listing_found_witness :
  findFederationConfig "/p" "./" Cases.rootTree = Some "/p/federation.config.json".
Proof.
  refine (eq_trans (manifest_in_listing_found "/p" "./" Cases.rootTree _) _).
  - exists (File "federation.config.json"). split; [simpl; auto | reflexivity].
  - reflexivity.
Defined.

Lemma scanDir_vendored (cwd base : string) (pre post : list entry) (d : string)
    (inside inside' : list entry) (queue : list (string * list entry)) :
  JsString.includes (Path.join [base; d]) "node_modules" = true ->
  scanDir cwd base (List.app pre (Dir d inside :: post)) queue
  = scanDir cwd base (List.app pre (Dir d inside' :: post)) queue.
Proof.
  intros Hv. revert queue. induction pre as [|x pre IH]; intros queue.
  - cbn [List.app scanDir entryName isDirectory]. rewrite Hv.
    destruct (String.eqb d manifestName); reflexivity.
  - cbn [List.app scanDir].
    destruct (String.eqb (entryName x) manifestName); [reflexivity|].
    destruct (isDirectory x && _); apply IH.
Qed.

(** X5: a directory whose path contains node_modules is never entered:
    what it holds has no influence on the result of the search. *)
Theorem vendored_directory_not_entered (cwd base : string) (pre post : list entry)
    (d : string) (inside inside' : list entry) :
  JsString.includes (Path.join [base; d]) "node_modules" = true ->
  findFederationConfig cwd base (List.app pre (Dir d inside :: post))
  = findFederationConfig cwd base (List.app pre (Dir d inside' :: post)).
Proof.
  intros Hv. rewrite !findFederationConfig_eq.
  rewrite (scanDir_vendored cwd base pre post d inside inside' [] Hv). reflexivity.
Qed.

Lemma vendored_directory_not_entered_witness :
  findFederationConfig "/p" "./" (Cases.vendoredTree [File "federation.config.json"])
  = findFederationConfig "/p" "./" (Cases.vendoredTree []).
Proof.
  apply (vendored_directory_not_entered "/p" "./" [File "package.json"]
           [Dir "src" [File "federation.config.json"]] "node_modules").
  reflexivity.
Defined.

Lemma scanDir_found_resolved (cwd base : string) (files : list entry)
    (queue : list (string * list entry)) (found : string) :
  scanDir cwd base files queue = inl found ->
  exists x, found = Path.resolve cwd ["./"; x].
Proof.
  revert queue. induction files as [|e files IH]; intros queue; simpl; [discriminate|].
  destruct (String.eqb (entryName e) manifestName).
  - intros [= <-]. eauto.
  - destruct (isDirectory e && _); apply IH.
Qed.

Lemma findFederationConfig_resolved (cwd : string) (n : nat) :
  forall base files p, height files <= n ->
    findFederationConfig cwd base files = Some p ->
    exists x, p = Path.resolve cwd ["./"; x].
Proof.
  induction n as [|n IH]; intros base files p Hh.
  - unfold height in Hh. lia.
  - rewrite findFederationConfig_eq.
    destruct (scanDir cwd base files []) as [found|[|[nb ch] rest]] eqn:Hs.
    + intros [= <-]. eapply scanDir_found_resolved, Hs.
    + discriminate.
    + apply scanDir_queue in Hs.
      destruct (queueOf_children base files nb ch) as (e & Hin & Hq & _ & Hch).
      { rewrite <- Hs. left. reflexivity. }
      apply andb_true_iff in Hq as [Hd _].
      apply IH. subst ch. rewrite height_children by assumption.
      pose proof (entryHeight_le files e Hin). lia.
Qed.

(** X6: with an absolute working directory, the output directory, the
    path of the declaration file and the path of the manifest the search
    returns are absolute. *)
Theorem script_paths_absolute (env : Env) :
  Path.isAbsolute (cwd env) = true ->
  Path.isAbsolute (outputDir env) = true
  /\ (forall cfg, Path.isAbsolute (outFileOf env cfg) = true)
  /\ (forall p, findFederationConfig (cwd env) "./" (rootListing env) = Some p ->
                Path.isAbsolute p = true).
Proof.
  intros Hcwd. split; [|split].
  - unfold outputDir. destruct (outDirArg env) as [arg|]; [destruct (JsString.truthy arg)|];
      apply resolve_absolute, Hcwd.
  - intros cfg. apply resolve_absolute, Hcwd.
  - intros p Hp.
    destruct (findFederationConfig_resolved (cwd env) _ "./" (rootListing env) p
                (Nat.le_refl _) Hp) as [x ->].
    apply resolve_absolute, Hcwd.
Qed.

Lemma script_paths_absolute_witness :
  Path.isAbsolute (outputDir Sample.env) = true
  /\ Path.isAbsolute (outFileOf Sample.env Sample.cfg) = true.
Proof.
  destruct (script_paths_absolute Sample.env eq_refl) as (Hdir & Hfile & _).
  split; [exact Hdir | apply Hfile].
Defined.


(** ** Identifier rewriter, further *)

Lemma execAll_without_header (typing : string) :
  JsString.includes typing Regex.declareModule = false -> Regex.execAll 0 typing = [].
Proof.
  induction typing as [|c typing IH]; [reflexivity|].
  cbn [JsString.includes Regex.execAll]. intros H.
  apply orb_false_iff in H as [Hp Hrest].
  unfold Regex.matchDeclare, JsString.startsWith. rewrite Hp. apply IH, Hrest.
Qed.

(** X7: a text in which the words of a declaration header do not occur
    has no module identifier, and the rewriter gives it back unchanged,
    whatever the manifest and the host. *)
Theorem rewrite_without_declarations
    (regexReplace : string -> string -> string -> option string)
    (cfg : Config) (typing : string) :
  JsString.includes typing Regex.declareModule = false ->
  moduleNames typing = [] /\ rewriteTyping regexReplace cfg typing = inr typing.
Proof.
  intros H. assert (Hn : moduleNames typing = []) by apply execAll_without_header, H.
  split; [exact Hn|]. unfold rewriteTyping. rewrite Hn. reflexivity.
Qed.

Lemma rewrite_without_declarations_witness :
  rewriteTyping Sample.regexReplace Sample.cfg "export {};" = inr "export {};".
Proof.
  apply (rewrite_without_declarations Sample.regexReplace Sample.cfg "export {};").
  reflexivity.
Defined.



Lemma lacks_app (c : ascii) (a b : string) : lacks c (a ++ b) = lacks c a && lacks c b.
Proof.
  induction a as [|x a IH]; [reflexivity|].
  rewrite app_cons. cbn [lacks]. rewrite IH, andb_assoc. reflexivity.
Qed.

Lemma forwardSlashes_lacks (s : string) : lacks "\"%char (forwardSlashes s) = true.
Proof.
  induction s as [|c s IH]; [reflexivity|]. cbn [forwardSlashes lacks]. rewrite IH.
  destruct (Ascii.eqb c "\") eqn:E; [reflexivity|].
  cbn [orb]. destruct (Ascii.eqb c "/"); [reflexivity|]. rewrite E. reflexivity.
Qed.

Lemma forwardSlashes_id (s : string) : lacks "\"%char s = true -> forwardSlashes s = s.
Proof.
  induction s as [|c s IH]; [reflexivity|]. cbn [forwardSlashes lacks]. intros H.
  apply andb_true_iff in H as [Hc Hs]. apply negb_true_iff in Hc.
  rewrite Hc, IH by assumption. cbn [orb].
  destruct (Ascii.eqb_spec c "/") as [->|_]; reflexivity.
Qed.

Lemma split_plain (sep : ascii) (s : string) :
  lacks sep s = true -> JsString.split sep s = [s].
Proof.
  induction s as [|c s IH]; [reflexivity|]. cbn [lacks JsString.split]. intros H.
  apply andb_true_iff in H as [Hc Hs]. apply negb_true_iff in Hc.
  rewrite Hc, IH by assumption. reflexivity.
Qed.

Lemma endsWithSep_lastChar (p : string) :
  Path.endsWithSep p
  = match lastChar p with Some c => Ascii.eqb c "/"%char | None => false end.
Proof.
  induction p as [|c p IH]; [reflexivity|].
  destruct p as [|d p]; [reflexivity|]. exact IH.
Qed.

Lemma lastChar_lacks (c : ascii) (s : string) :
  lacks c s = true -> lastChar s <> Some c.
Proof.
  induction s as [|d s IH]; [discriminate|]. cbn [lacks]. intros H.
  apply andb_true_iff in H as [Hd Hs]. apply negb_true_iff, Ascii.eqb_neq in Hd.
  destruct s as [|e s]; [simpl; congruence | apply IH, Hs].
Qed.

Lemma endsWithSep_plain (a key : string) :
  JsString.truthy key = true -> lacks "/"%char key = true ->
  Path.endsWithSep (a ++ key) = false.
Proof.
  intros Ht Hl. rewrite endsWithSep_lastChar.
  destruct key as [|c key]; [discriminate|]. rewrite lastChar_app.
  pose proof (lastChar_lacks "/" (String c key) Hl) as Hne.
  destruct (lastChar (String c key)) as [d|]; [|reflexivity].
  apply Ascii.eqb_neq. congruence.
Qed.

Lemma plainSegment_spec (s : string) :
  plainSegment s = true ->
  JsString.truthy s = true /\ lacks "/"%char s = true /\ lacks "\"%char s = true
  /\ String.eqb s "." = false /\ String.eqb s ".." = false.
Proof.
  unfold plainSegment. intros H.
  repeat (apply andb_true_iff in H as [H ?]).
  repeat split; try assumption; apply negb_true_iff; assumption.
Qed.

Lemma join_plain (a key : string) :
  plainSegment a = true -> plainSegment key = true ->
  Path.join [a; key] = a ++ "/" ++ key /\ Path.join [a; "./" ++ key] = a ++ "/" ++ key.
Proof.
  intros Ha Hk.
  apply plainSegment_spec in Ha as (Hat & Has & _ & Had & Hadd).
  apply plainSegment_spec in Hk as (Hkt & Hks & _ & Hkd & Hkdd).
  assert (Hae : String.eqb a "" = false) by (destruct a; [discriminate | reflexivity]).
  assert (Hke : String.eqb key "" = false) by (destruct key; [discriminate | reflexivity]).
  assert (Habs : forall x, Path.isAbsolute (a ++ x) = false).
  { intros x. destruct a as [|c a]; [discriminate|]. rewrite app_cons.
    cbn [lacks] in Has. apply andb_true_iff in Has as [Hc _].
    apply negb_true_iff in Hc. exact Hc. }
  assert (Hne : forall x, exists c y, a ++ x = String c y).
  { intros x. destruct a as [|c a]; [discriminate|]. rewrite app_cons. eauto. }
  assert (Hbody : forall x, exists c y, a ++ "/" ++ x = String c y) by (intros x; apply Hne).
  split.
  - unfold Path.join. rewrite filter_cons_True, filter_cons_True by assumption.
    cbn [filter JsString.join]. change (filter _ []) with (@nil string).
    cbn [JsString.join]. unfold Path.normalize.
    destruct (Hne ("/" ++ key)) as (c & y & E). rewrite E. rewrite <- E. clear c y E.
    rewrite Habs. cbn [negb]. unfold Path.normalizeString.
    change ("/" ++ key) with (String "/" key). rewrite split_app_sep.
    rewrite (split_plain "/" a Has), (split_plain "/" key Hks).
    cbn [List.app Path.normalizeSegs]. rewrite Hae, Had, Hadd, Hke, Hkd, Hkdd.
    cbn [orb rev List.app JsString.join].
    change (a ++ String "/" key) with (a ++ "/" ++ key).
    destruct (Hbody key) as (c & y & E). rewrite E. rewrite <- E.
    rewrite <- app_assoc_s, endsWithSep_plain by assumption. rewrite app_assoc_s. reflexivity.
  - unfold Path.join. rewrite filter_cons_True, filter_cons_True by (assumption || reflexivity).
    change (filter _ []) with (@nil string).
    cbn [JsString.join]. unfold Path.normalize.
    destruct (Hne ("/" ++ "./" ++ key)) as (c & y & E). rewrite E. rewrite <- E. clear c y E.
    rewrite Habs. cbn [negb]. unfold Path.normalizeString.
    change ("/" ++ "./" ++ key) with (String "/" ("." ++ String "/" key)).
    rewrite !split_app_sep.
    rewrite (split_plain "/" a Has), (split_plain "/" key Hks).
    change (JsString.split "/" ".") with ["."].
    cbn [List.app Path.normalizeSegs]. rewrite Hae, Had, Hadd, Hke, Hkd, Hkdd.
    cbn [orb String.eqb Ascii.eqb Bool.eqb rev List.app JsString.join].
    change (a ++ String "/" ("." ++ String "/" key)) with (a ++ "/." ++ "/" ++ key).
    destruct (Hbody key) as (c & y & E). rewrite E. rewrite <- E.
    rewrite <- !app_assoc_s, endsWithSep_plain by assumption.
    rewrite !app_assoc_s. reflexivity.
Qed.

(** X9: the public name of a module never contains a backslash; for a
    manifest name and a key that are one plain segment each it is the name,
    a slash and the key, with or without the leading dot segment of the
    key. *)
Theorem moduleDeclareName_shape (cfg : Config) (key : string) :
  lacks "\"%char (getModuleDeclareName cfg key) = true
  /\ (plainSegment (name cfg) = true -> plainSegment key = true ->
      getModuleDeclareName cfg key = name cfg ++ "/" ++ key
      /\ getModuleDeclareName cfg ("./" ++ key) = name cfg ++ "/" ++ key).
Proof.
  split; [apply forwardSlashes_lacks|].
  intros Hn Hk. unfold getModuleDeclareName.
  destruct (join_plain (name cfg) key Hn Hk) as [-> ->].
  apply plainSegment_spec in Hn as (_ & _ & Hnb & _).
  apply plainSegment_spec in Hk as (_ & _ & Hkb & _).
  assert (lacks "\"%char (name cfg ++ "/" ++ key) = true) as Hl.
  { rewrite !lacks_app, Hnb, Hkb. reflexivity. }
  rewrite forwardSlashes_id by exact Hl. split; reflexivity.
Qed.

Lemma moduleDeclareName_shape_witness :
  getModuleDeclareName Sample.cfg "./Button" = "app/Button"
  /\ getModuleDeclareName Sample.cfg "Button" = "app/Button".
Proof.
  destruct (moduleDeclareName_shape Sample.cfg "Button") as [_ H].
  destruct (H eq_refl eq_refl) as [Hplain Hdot].
  split; [exact Hdot | exact Hplain].
Defined.

Lemma restOfLine_lacks (c : ascii) (rest tail : string) :
  lacks c rest = true -> lineBreak tail = true ->
  lacks c (Regex.restOfLine (rest ++ tail)) = true.
Proof.
  intros Hr Ht. induction rest as [|d rest IH].
  - rewrite app_empty_l. destruct tail as [|e t]; [reflexivity|].
    cbn [lineBreak] in Ht. cbn [Regex.restOfLine]. rewrite Ht. reflexivity.
  - rewrite app_cons. cbn [Regex.restOfLine]. cbn [lacks] in Hr.
    apply andb_true_iff in Hr as [Hd Hr].
    destruct (Regex.lineTerminator d); [reflexivity|].
    cbn [lacks]. rewrite Hd, IH by assumption. reflexivity.
Qed.

(** X10: a declaration header whose line has no closing double quote
    gives no identifier; the search goes on behind the line. *)
Theorem header_without_closing_quote (rest tail : string) :
  lacks Regex.dq rest = true ->
  lineBreak tail = true ->
  moduleNames (Regex.declareModule ++ rest ++ tail) = moduleNames tail.
Proof.
  intros Hr Ht. unfold moduleNames.
  assert (Hm : Regex.matchDeclare (Regex.declareModule ++ rest ++ tail) = None).
  { unfold Regex.matchDeclare, JsString.startsWith.
    rewrite prefix_refl_app, drop_app.
    apply uptoLastQuote_none, restOfLine_lacks; assumption. }
  remember (Regex.declareModule ++ rest ++ tail) as s eqn:Es.
  destruct s as [|c s']; [discriminate|].
  cbn [Regex.execAll]. rewrite Hm.
  change Regex.declareModule with (String "d" ("eclare module " ++ String Regex.dq "")) in Es.
  rewrite app_cons in Es. injection Es as _ ->.
  rewrite <- (execAll_unquoted rest tail Hr Ht).
  generalize (rest ++ tail). intros x. reflexivity.
Qed.

Lemma header_without_closing_quote_witness :
  moduleNames Cases.openHeader = ["src/Button.ts"].
Proof.
  refine (eq_trans (header_without_closing_quote "src/Button.ts {" (nl ++ Sample.blob) _ _) _);
    reflexivity.
Defined.


(** ** What is printed and what it depends on *)

Lemma sameButOut_refl (s : State) : sameButOut s s.
Proof. split; reflexivity. Qed.

Lemma logBlind_ret {A} (a : A) : logBlind (ret a).
Proof. intros s s' H. split; [reflexivity | exact H]. Qed.

Lemma logBlind_throw {A} (e : exn) : logBlind (@throw A e).
Proof. intros s s' H. split; [reflexivity | exact H]. Qed.

Lemma logBlind_exit {A} (c : nat) : logBlind (@processExit A c).
Proof. intros s s' H. split; [reflexivity | exact H]. Qed.

Lemma logBlind_bind {A B} (m : M A) (k : A -> M B) :
  logBlind m -> (forall a, logBlind (k a)) -> logBlind (bind m k).
Proof.
  intros Hm Hk s s' H. unfold bind. destruct (Hm s s' H) as [Ho Hs].
  destruct (m s) as [o1 s1], (m s') as [o2 s2]. simpl in Ho, Hs. subst o2.
  destruct o1 as [a|c|e]; [apply Hk, Hs | split; [reflexivity | exact Hs]..].
Qed.

Lemma logBlind_log (line : string) : logBlind (consoleLog line).
Proof. intros s s' [Hf He]. split; [reflexivity | split; assumption]. Qed.

Lemma logBlind_error (line : string) : logBlind (consoleError line).
Proof.
  intros s s' [Hf He]. split; [reflexivity|]. split; simpl; [assumption|].
  rewrite He. reflexivity.
Qed.

Lemma logBlind_exists (p : string) : logBlind (existsSync p).
Proof.
  intros s s' [Hf He]. unfold existsSync. simpl. rewrite Hf.
  split; [reflexivity | split; assumption].
Qed.

Lemma logBlind_read (p : string) : logBlind (readFileSync p).
Proof.
  intros s s' [Hf He]. unfold readFileSync. rewrite Hf.
  destruct (files s' !! p); (split; [reflexivity | split; assumption]).
Qed.

Lemma logBlind_setFiles (f : gmap string string -> gmap string string) :
  logBlind (setFiles f).
Proof.
  intros s s' [Hf He]. split; [reflexivity|]. split; simpl; [rewrite Hf; reflexivity | exact He].
Qed.

Lemma logBlind_unlink (p : string) : logBlind (unlinkSync p).
Proof.
  intros s s' H. pose proof H as [Hf He]. unfold unlinkSync. rewrite Hf.
  destruct (files s' !! p); [apply logBlind_setFiles, H | split; [reflexivity | exact H]].
Qed.

Lemma logBlind_copy (src dst : string) : logBlind (copyFileSync src dst).
Proof.
  apply logBlind_bind; [apply logBlind_read | intros c; apply logBlind_setFiles].
Qed.

Lemma logBlind_liftE {A} (r : exn + A) : logBlind (liftE r).
Proof. destruct r; [apply logBlind_throw | apply logBlind_ret]. Qed.

Lemma logBlind_writePackageJson (env : Env) : logBlind (writePackageJson env).
Proof.
  unfold writePackageJson. destruct (JsString.includes _ _); [|apply logBlind_log].
  apply logBlind_bind; [apply logBlind_exists | intros [|]; cbn [negb]].
  - apply logBlind_log.
  - apply logBlind_bind; [apply logBlind_log | intros _; apply logBlind_copy].
Qed.

Lemma logBlind_updateIndex (indexPath importStatement : string) :
  logBlind (updateIndex indexPath importStatement).
Proof.
  unfold updateIndex.
  apply logBlind_bind; [apply logBlind_exists | intros [|]; cbn [negb]].
  - apply logBlind_bind; [apply logBlind_log | intros _].
    apply logBlind_bind; [apply logBlind_read | intros contents].
    destruct (negb _); [apply logBlind_setFiles | apply logBlind_ret].
  - apply logBlind_bind; [apply logBlind_log | intros _; apply logBlind_setFiles].
Qed.

Lemma logBlind_tryCatch (body : M unit) : logBlind body -> logBlind (tryCatch body).
Proof.
  intros Hb s s' H. unfold tryCatch. destruct (Hb s s' H) as [Ho Hs].
  destruct (body s) as [o1 s1], (body s') as [o2 s2]. simpl in Ho, Hs. subst o2.
  destruct o1 as [a|c|e]; [split; [reflexivity | exact Hs]..|].
  apply (logBlind_bind (consoleError _) (fun _ => processExit 1));
    [apply logBlind_error | intros _; apply logBlind_exit | exact Hs].
Qed.

Lemma keepsOut_ret {A} (a : A) : keepsOut (ret a).
Proof. intros l s H. exact H. Qed.

Lemma keepsOut_bind {A B} (m : M A) (k : A -> M B) :
  keepsOut m -> (forall a, keepsOut (k a)) -> keepsOut (bind m k).
Proof.
  intros Hm Hk l s H. unfold bind. specialize (Hm l s H).
  destruct (m s) as [[a|c|e] s']; simpl in *; [apply Hk|..]; assumption.
Qed.

Lemma keepsOut_log (line : string) : keepsOut (consoleLog line).
Proof.
  intros l s [more H]. exists (List.app more [line]). simpl.
  rewrite H, <- app_assoc. reflexivity.
Qed.

Lemma keepsOut_same {A} (m : M A) :
  (forall s, out (snd (m s)) = out s) -> keepsOut m.
Proof. intros Hm l s [more H]. exists more. rewrite Hm. exact H. Qed.

Lemma keepsOut_read (p : string) : keepsOut (readFileSync p).
Proof.
  apply keepsOut_same. intros s. unfold readFileSync. destruct (files s !! p); reflexivity.
Qed.

Lemma keepsOut_writePackageJson (env : Env) : keepsOut (writePackageJson env).
Proof.
  unfold writePackageJson. destruct (JsString.includes _ _); [|apply keepsOut_log].
  apply keepsOut_bind; [apply keepsOut_same; reflexivity | intros [|]; cbn [negb]].
  - apply keepsOut_log.
  - apply keepsOut_bind; [apply keepsOut_log | intros _].
    apply keepsOut_bind; [apply keepsOut_read | intros c; apply keepsOut_same; reflexivity].
Qed.

Lemma keepsOut_updateIndex (indexPath importStatement : string) :
  keepsOut (updateIndex indexPath importStatement).
Proof.
  unfold updateIndex.
  apply keepsOut_bind; [apply keepsOut_same; reflexivity | intros [|]; cbn [negb]].
  - apply keepsOut_bind; [apply keepsOut_log | intros _].
    apply keepsOut_bind; [apply keepsOut_read | intros contents].
    destruct (negb _); apply keepsOut_same; reflexivity.
  - apply keepsOut_bind; [apply keepsOut_log | intros _; apply keepsOut_same; reflexivity].
Qed.

Lemma keepsOut_tryCatch (body : M unit) : keepsOut body -> keepsOut (tryCatch body).
Proof.
  intros Hb l s H. unfold tryCatch. specialize (Hb l s H).
  destruct (body s) as [[a|c|e] s']; simpl in *; exact Hb.
Qed.

Section Printing.

Variable regexReplace : string -> string -> string -> option string.

Lemma logBlind_afterEmit (env : Env) (cfg : Config) (r : EmitResult) :
  logBlind (afterEmit regexReplace env cfg r).
Proof.
  unfold afterEmit.
  apply logBlind_bind;
    [destruct (emitSkipped r); [apply logBlind_exit | apply logBlind_ret] | intros _].
  apply logBlind_bind; [apply logBlind_read | intros typing].
  apply logBlind_bind; [apply logBlind_liftE | intros typing'].
  apply logBlind_bind; [apply logBlind_log | intros _].
  apply logBlind_bind; [apply logBlind_setFiles | intros _].
  apply logBlind_bind; [apply logBlind_writePackageJson | intros _].
  apply logBlind_bind; [apply logBlind_updateIndex | intros _].
  apply logBlind_log.
Qed.

Lemma keepsOut_afterEmit (env : Env) (cfg : Config) (r : EmitResult) :
  keepsOut (afterEmit regexReplace env cfg r).
Proof.
  unfold afterEmit.
  apply keepsOut_bind;
    [destruct (emitSkipped r); apply keepsOut_same; reflexivity | intros _].
  apply keepsOut_bind; [apply keepsOut_read | intros typing].
  apply keepsOut_bind;
    [apply keepsOut_same; intros s; destruct (rewriteTyping _ _ _); reflexivity
    | intros typing'].
  apply keepsOut_bind; [apply keepsOut_log | intros _].
  apply keepsOut_bind; [apply keepsOut_same; reflexivity | intros _].
  apply keepsOut_bind; [apply keepsOut_writePackageJson | intros _].
  apply keepsOut_bind; [apply keepsOut_updateIndex | intros _].
  apply keepsOut_log.
Qed.

Lemma afterEmit_skip_eq (env : Env) (cfg : Config) (r r' : EmitResult) :
  emitSkipped r' = emitSkipped r ->
  afterEmit regexReplace env cfg r' = afterEmit regexReplace env cfg r.
Proof. intros H. unfold afterEmit. rewrite H. reflexivity. Qed.

(** X11: diagnostics are printed and nothing else: two engines that
    agree on whether emission was skipped and on the text they write give
    runs with the same exit status, the same error channel and the same
    files, whatever diagnostics they report. *)
Theorem diagnostics_do_not_abort
    (emit emit' : list string -> string -> gmap string string -> EmitResult)
    (env : Env) (fs : gmap string string) :
  (forall compileFiles outFile files',
      emitSkipped (emit' compileFiles outFile files')
      = emitSkipped (emit compileFiles outFile files')
      /\ emitted (emit' compileFiles outFile files')
         = emitted (emit compileFiles outFile files')) ->
  status (run emit' regexReplace env fs) = status (run emit regexReplace env fs)
  /\ stderr (run emit' regexReplace env fs) = stderr (run emit regexReplace env fs)
  /\ finalFiles (run emit' regexReplace env fs) = finalFiles (run emit regexReplace env fs).
Proof.
  intros Hagree. unfold run.
  destruct (findFederationConfig (cwd env) "./" (rootListing env)) as [p|] eqn:Hp.
  - destruct (requireConfig env p) as [cfg|] eqn:Hc.
    + rewrite !(script_loaded _ _ env p cfg _ Hp Hc). unfold tryCatch.
      rewrite !tryBody_emit. cbn [initial files out err].
      destruct (Hagree (compileFiles cfg) (outFileOf env cfg)
                  (delete (outFileOf env cfg) fs)) as [Hskip Hemitted].
      rewrite (afterEmit_skip_eq env cfg _ _ Hskip).
      assert (Hfiles : emittedFiles emit' env cfg fs = emittedFiles emit env cfg fs)
        by (unfold emittedFiles; rewrite Hemitted; reflexivity).
      rewrite Hfiles.
      match goal with
      | |- context [afterEmit regexReplace env cfg ?r ?s2] =>
          match goal with
          | |- context [afterEmit regexReplace env cfg r ?s1] =>
              assert_fails (constr_eq s1 s2);
              pose proof (logBlind_afterEmit env cfg r s2 s1 (conj eq_refl eq_refl))
                as [Ho [Hf He]]
          end
      end.
      destruct (afterEmit _ _ _ _ _) as [o1 s1], (afterEmit _ _ _ _ _) as [o2 s2].
      simpl in Ho, Hf, He. subst o1.
      destruct o2; simpl; rewrite ?Hf, ?He; auto.
    + unfold script. rewrite Hp. unfold bind, consoleLog. rewrite Hc. simpl. auto.
  - unfold script. rewrite Hp. simpl. auto.
Qed.

End Printing.


Lemma diagnostics_do_not_abort_witness :
  status (run Cases.emitNoisy Sample.regexReplace Sample.env Sample.fs0)
  = status (run Sample.emitBlob Sample.regexReplace Sample.env Sample.fs0)
  /\ finalFiles (run Cases.emitNoisy Sample.regexReplace Sample.env Sample.fs0)
     = finalFiles (run Sample.emitBlob Sample.regexReplace Sample.env Sample.fs0).
Proof.
  destruct (diagnostics_do_not_abort Sample.regexReplace Sample.emitBlob Cases.emitNoisy
              Sample.env Sample.fs0) as (Hs & _ & Hf).
  - intros cf o fs'. split; reflexivity.
  - split; assumption.
Defined.

Section Runs.

Variable emit : list string -> string -> gmap string string -> EmitResult.
Variable regexReplace : string -> string -> string -> option string.

(** X12: every diagnostic of the engine is printed, in the order of the
    report and right after the line that names the manifest, whether or
    not emission was skipped and however the run ends. *)
Theorem diagnostics_reported (env : Env) (p : string) (cfg : Config)
    (fs : gmap string string) :
  findFederationConfig (cwd env) "./" (rootListing env) = Some p ->
  requireConfig env p = Some cfg ->
  exists more,
    stdout (run emit regexReplace env fs)
    = List.app
        (("Using config file: " ++ p)
         :: map diagnosticLine
              (diagnostics (emit (compileFiles cfg) (outFileOf env cfg)
                              (delete (outFileOf env cfg) fs))))
        more.
Proof.
  intros Hp Hc. unfold run. rewrite (script_loaded _ _ env p cfg _ Hp Hc).
  unfold tryCatch. rewrite tryBody_emit. cbn [initial files out err].
  match goal with
  | |- context [afterEmit regexReplace env cfg ?r ?S] =>
      destruct (keepsOut_afterEmit regexReplace env cfg r (out S) S
                  (ex_intro _ [] (eq_sym (app_nil_r _)))) as [more Hmore]
  end.
  destruct (afterEmit _ _ _ _ _) as [[a|c|e] s']; exists more; exact Hmore.
Qed.

Lemma writePackageJson_files (env : Env) (s : State) :
  (JsString.includes (outputDir env) "node_modules/@types" = true ->
   files s !! packageJsonPathOf env = None ->
   is_Some (files s !! templatePathOf env)) ->
  exists s',
    writePackageJson env s = (Value tt, s')
    /\ err s' = err s
    /\ files s' = withPackageJson env (files s).
Proof.
  intros Hok. unfold writePackageJson, withPackageJson.
  change (Path.join ["node_modules"; "@types"]) with "node_modules/@types".
  destruct (JsString.includes (outputDir env) "node_modules/@types") eqn:Hinc.
  - unfold bind, existsSync, copyFileSync, bind, readFileSync, consoleLog,
      writeFileSync, setFiles. cbn [fst snd files].
    destruct (files s !! packageJsonPathOf env) as [c|] eqn:Hpj.
    + rewrite bool_decide_eq_true_2 by eauto. cbn [negb]. eexists. repeat split.
    + rewrite bool_decide_eq_false_2 by (intros [? ?]; discriminate). cbn [negb files].
      destruct (Hok eq_refl eq_refl) as [content ->].
      eexists. repeat split.
  - eexists. repeat split.
Qed.

(** The package descriptor step when the template is missing. *)
Lemma writePackageJson_thrown (env : Env) (s : State) :
  JsString.includes (outputDir env) "node_modules/@types" = true ->
  files s !! packageJsonPathOf env = None ->
  files s !! templatePathOf env = None ->
  exists s',
    writePackageJson env s = (Thrown (ENOENT (templatePathOf env)), s')
    /\ err s' = err s /\ files s' = files s.
Proof.
  intros Hinc Hpj Ht. unfold writePackageJson.
  change (Path.join ["node_modules"; "@types"]) with "node_modules/@types".
  rewrite Hinc.
  unfold bind, existsSync, copyFileSync, bind, readFileSync, consoleLog,
    writeFileSync, setFiles. cbn [fst snd files]. rewrite Hpj.
  rewrite bool_decide_eq_false_2 by (intros [? ?]; discriminate). cbn [negb files].
  rewrite Ht. eexists. repeat split.
Qed.

Lemma updateIndex_value (indexPath importStatement : string) (s : State) :
  exists s', updateIndex indexPath importStatement s = (Value tt, s') /\ err s' = err s.
Proof.
  unfold updateIndex, bind, existsSync, readFileSync, consoleLog, writeFileSync,
    setFiles, ret. cbn [fst snd files].
  destruct (files s !! indexPath) as [contents|] eqn:E.
  - rewrite bool_decide_eq_true_2 by eauto. cbn [negb files]. rewrite E.
    destruct (JsString.includes contents importStatement); eexists; split; reflexivity.
  - rewrite bool_decide_eq_false_2 by (intros [? ?]; discriminate).
    eexists; split; reflexivity.
Qed.

(** The [try] block after a successful emission and rewrite, up to the
    package descriptor step. *)
Lemma afterEmit_rewritten (env : Env) (cfg : Config) (r : EmitResult) (s : State)
    (text typing' : string) :
  emitSkipped r = false ->
  files s !! outFileOf env cfg = Some text ->
  rewriteTyping regexReplace cfg text = inr typing' ->
  afterEmit regexReplace env cfg r s
  = (writePackageJson env ;;;
     updateIndex (indexPathOf env) (importStatementOf cfg) ;;;
     consoleLog "Success!")
      {| files := <[outFileOf env cfg := typing']> (files s);
         out := List.app (out s) ["writing typing file: " ++ outFileOf env cfg];
         err := err s |}.
Proof.
  intros Hskip Hread Hrw. unfold afterEmit. rewrite Hskip.
  unfold bind at 1. unfold ret at 1. unfold bind at 1. unfold readFileSync at 1.
  rewrite Hread. unfold bind at 1. rewrite Hrw. unfold liftE, ret.
  unfold bind at 1. unfold consoleLog at 1. unfold bind at 1.
  unfold writeFileSync at 1, setFiles at 1. reflexivity.
Qed.

Lemma afterEmit_rewrite_thrown (env : Env) (cfg : Config) (r : EmitResult) (s : State)
    (text : string) (e : exn) :
  emitSkipped r = false ->
  files s !! outFileOf env cfg = Some text ->
  rewriteTyping regexReplace cfg text = inl e ->
  afterEmit regexReplace env cfg r s = (Thrown e, s).
Proof.
  intros Hskip Hread Hrw. unfold afterEmit. rewrite Hskip.
  unfold bind at 1. unfold ret at 1. unfold bind at 1. unfold readFileSync at 1.
  rewrite Hread. unfold bind at 1. rewrite Hrw. reflexivity.
Qed.

End Runs.


(** ** Whole runs *)

Section Outcomes.

Variable emit : list string -> string -> gmap string string -> EmitResult.
Variable regexReplace : string -> string -> string -> option string.

Lemma rewritten_other (env : Env) (cfg : Config) (fs : gmap string string)
    (typing' q : string) :
  q <> outFileOf env cfg ->
  <[outFileOf env cfg := typing']> (emittedFiles emit env cfg fs) !! q = fs !! q.
Proof.
  intros Hq. rewrite lookup_insert_ne by congruence. apply emittedFiles_other, Hq.
Qed.

Lemma withPackageJson_other (env : Env) (fs : gmap string string) (q : string) :
  q <> packageJsonPathOf env -> withPackageJson env fs !! q = fs !! q.
Proof.
  intros Hq. unfold withPackageJson.
  destruct (JsString.includes _ _); [|reflexivity].
  destruct (fs !! packageJsonPathOf env); [reflexivity|].
  destruct (fs !! templatePathOf env); [|reflexivity].
  apply lookup_insert_ne. congruence.
Qed.

Lemma withPackageJson_at (env : Env) (fs : gmap string string) :
  withPackageJson env fs !! packageJsonPathOf env
  = match fs !! packageJsonPathOf env with
    | Some content => Some content
    | None =>
        if JsString.includes (outputDir env) "node_modules/@types"
        then fs !! templatePathOf env else None
    end.
Proof.
  unfold withPackageJson.
  destruct (JsString.includes _ _); [|destruct (fs !! packageJsonPathOf env); reflexivity].
  destruct (fs !! packageJsonPathOf env) eqn:Hpj; [exact Hpj|].
  destruct (fs !! templatePathOf env); [apply lookup_insert_eq | exact Hpj].
Qed.

Lemma withIndexLine_other (indexPath importStatement : string) (fs : gmap string string)
    (q : string) :
  q <> indexPath -> withIndexLine indexPath importStatement fs !! q = fs !! q.
Proof.
  intros Hq. unfold withIndexLine. destruct (fs !! indexPath) as [c|].
  - destruct (JsString.includes c importStatement); [reflexivity|].
    apply lookup_insert_ne. congruence.
  - apply lookup_insert_ne. congruence.
Qed.

Lemma withIndexLine_at (indexPath importStatement : string) (fs : gmap string string) :
  withIndexLine indexPath importStatement fs !! indexPath
  = Some (match fs !! indexPath with
          | None => importStatement ++ nl
          | Some contents =>
              if JsString.includes contents importStatement then contents
              else contents ++ importStatement ++ nl
          end).
Proof.
  unfold withIndexLine. destruct (fs !! indexPath) as [c|] eqn:E.
  - destruct (JsString.includes c importStatement); [exact E | apply lookup_insert_eq].
  - apply lookup_insert_eq.
Qed.

(** A run in which the engine emits a text, the rewriter succeeds and the
    package descriptor step has what it needs: status, error channel and
    files. *)
Lemma run_success (env : Env) (p : string) (cfg : Config)
    (fs : gmap string string) (text typing' : string) :
  findFederationConfig (cwd env) "./" (rootListing env) = Some p ->
  requireConfig env p = Some cfg ->
  emitSkipped (emit (compileFiles cfg) (outFileOf env cfg) (delete (outFileOf env cfg) fs))
  = false ->
  emitted (emit (compileFiles cfg) (outFileOf env cfg) (delete (outFileOf env cfg) fs))
  = Some text ->
  rewriteTyping regexReplace cfg text = inr typing' ->
  (JsString.includes (outputDir env) "node_modules/@types" = true ->
   fs !! packageJsonPathOf env = None ->
   is_Some (fs !! templatePathOf env)) ->
  status (run emit regexReplace env fs) = 0
  /\ stderr (run emit regexReplace env fs) = []
  /\ finalFiles (run emit regexReplace env fs)
     = withIndexLine (indexPathOf env) (importStatementOf cfg)
         (withPackageJson env (<[outFileOf env cfg := typing']> fs)).
Proof.
  intros Hp Hc Hskip Hemitted Hrw Hok.
  remember (run emit regexReplace env fs) as result eqn:Hrun. unfold run in Hrun.
  rewrite (script_loaded _ _ env p cfg _ Hp Hc) in Hrun. unfold tryCatch in Hrun.
  rewrite tryBody_emit in Hrun. cbn [initial files out err] in Hrun.
  rewrite (afterEmit_rewritten regexReplace env cfg _ _ text typing' Hskip) in Hrun;
    [|cbn [files]; rewrite emittedFiles_outFile; exact Hemitted | exact Hrw].
  cbn [files out err] in Hrun. unfold bind at 1 in Hrun.
  assert (Hwritten : <[outFileOf env cfg := typing']> (emittedFiles emit env cfg fs)
                     = <[outFileOf env cfg := typing']> fs).
  { unfold emittedFiles. rewrite Hemitted, insert_insert_eq, insert_delete_eq. reflexivity. }
  rewrite Hwritten in Hrun.
  match type of Hrun with
  | context [writePackageJson env ?S] =>
      destruct (writePackageJson_files env S) as (s4 & Hw & He4 & Hf4)
  end.
  { cbn [files]. rewrite !lookup_insert_ne
      by (apply outFile_neq_packageJson || apply outFile_neq_template).
    exact Hok. }
  rewrite Hw in Hrun. cbn [files err] in He4, Hf4. unfold bind at 1 in Hrun.
  pose proof (updateIndex_files (indexPathOf env) (importStatementOf cfg) s4) as Hfiles.
  destruct (updateIndex_value (indexPathOf env) (importStatementOf cfg) s4)
    as (s5 & Hu & He5).
  rewrite Hu in Hfiles, Hrun. cbn [snd] in Hfiles. cbn in Hrun. subst result.
  cbn [status stderr finalFiles].
  split; [reflexivity|]. split; [congruence|].
  rewrite Hfiles, Hf4. reflexivity.
Qed.

(** X13: a run in which the engine emits a text and the rewriter
    succeeds ends with status 0 and nothing on the error channel, provided
    the package descriptor step has a template to copy when it needs one.
    The declaration file then holds the rewritten text; the index holds
    its former contents with the line for the manifest, added once if it
    was missing; the package descriptor is the former one, or else the copy
    of the template when the output directory is under the shared type
    declarations. *)
Theorem successful_run (env : Env) (p : string) (cfg : Config)
    (fs : gmap string string) (text typing' : string) :
  findFederationConfig (cwd env) "./" (rootListing env) = Some p ->
  requireConfig env p = Some cfg ->
  emitSkipped (emit (compileFiles cfg) (outFileOf env cfg) (delete (outFileOf env cfg) fs))
  = false ->
  emitted (emit (compileFiles cfg) (outFileOf env cfg) (delete (outFileOf env cfg) fs))
  = Some text ->
  rewriteTyping regexReplace cfg text = inr typing' ->
  (JsString.includes (outputDir env) "node_modules/@types" = true ->
   fs !! packageJsonPathOf env = None ->
   is_Some (fs !! templatePathOf env)) ->
  outFileOf env cfg <> indexPathOf env ->
  status (run emit regexReplace env fs) = 0
  /\ stderr (run emit regexReplace env fs) = []
  /\ finalFiles (run emit regexReplace env fs) !! outFileOf env cfg = Some typing'
  /\ finalFiles (run emit regexReplace env fs) !! indexPathOf env
     = Some (match fs !! indexPathOf env with
             | None => importStatementOf cfg ++ nl
             | Some contents =>
                 if JsString.includes contents (importStatementOf cfg) then contents
                 else contents ++ importStatementOf cfg ++ nl
             end)
  /\ finalFiles (run emit regexReplace env fs) !! packageJsonPathOf env
     = match fs !! packageJsonPathOf env with
       | Some content => Some content
       | None =>
           if JsString.includes (outputDir env) "node_modules/@types"
           then fs !! templatePathOf env else None
       end.
Proof.
  intros Hp Hc Hskip Hemitted Hrw Hok Hne.
  destruct (run_success env p cfg fs text typing' Hp Hc Hskip Hemitted Hrw Hok)
    as (Hs & He & ->).
  split; [exact Hs|]. split; [exact He|]. split; [|split].
  - rewrite withIndexLine_other by exact Hne.
    rewrite withPackageJson_other by apply outFile_neq_packageJson.
    apply lookup_insert_eq.
  - rewrite withIndexLine_at.
    rewrite withPackageJson_other by apply index_neq_packageJson.
    rewrite lookup_insert_ne by exact Hne. reflexivity.
  - rewrite withIndexLine_other by (apply not_eq_sym, index_neq_packageJson).
    rewrite withPackageJson_at.
    rewrite !lookup_insert_ne
      by (apply outFile_neq_packageJson || apply outFile_neq_template).
    reflexivity.
Qed.

(** X19: a second run changes nothing: after a successful run, a run in
    which the engine emits the same text again ends with status 0 and
    leaves every file as the first run left it. *)
Theorem second_run_changes_nothing (env : Env) (p : string) (cfg : Config)
    (fs : gmap string string) (text typing' : string) :
  findFederationConfig (cwd env) "./" (rootListing env) = Some p ->
  requireConfig env p = Some cfg ->
  emitSkipped (emit (compileFiles cfg) (outFileOf env cfg) (delete (outFileOf env cfg) fs))
  = false ->
  emitted (emit (compileFiles cfg) (outFileOf env cfg) (delete (outFileOf env cfg) fs))
  = Some text ->
  rewriteTyping regexReplace cfg text = inr typing' ->
  (JsString.includes (outputDir env) "node_modules/@types" = true ->
   fs !! packageJsonPathOf env = None ->
   is_Some (fs !! templatePathOf env)) ->
  outFileOf env cfg <> indexPathOf env ->
  emitSkipped (emit (compileFiles cfg) (outFileOf env cfg)
                 (delete (outFileOf env cfg) (finalFiles (run emit regexReplace env fs))))
  = false ->
  emitted (emit (compileFiles cfg) (outFileOf env cfg)
             (delete (outFileOf env cfg) (finalFiles (run emit regexReplace env fs))))
  = Some text ->
  status (run emit regexReplace env (finalFiles (run emit regexReplace env fs))) = 0
  /\ finalFiles (run emit regexReplace env (finalFiles (run emit regexReplace env fs)))
     = finalFiles (run emit regexReplace env fs).
Proof.
  intros Hp Hc Hskip Hemitted Hrw Hok Hne.
  destruct (run_success env p cfg fs text typing' Hp Hc Hskip Hemitted Hrw Hok)
    as (_ & _ & Hfirst).
  set (first := finalFiles (run emit regexReplace env fs)) in *.
  intros Hskip2 Hemitted2.
  assert (Hout : first !! outFileOf env cfg = Some typing').
  { rewrite Hfirst. rewrite withIndexLine_other by exact Hne.
    rewrite withPackageJson_other by apply outFile_neq_packageJson.
    apply lookup_insert_eq. }
  assert (Hpj : forall q, q <> indexPathOf env ->
                  first !! q = withPackageJson env (<[outFileOf env cfg := typing']> fs) !! q).
  { intros q Hq. rewrite Hfirst. apply withIndexLine_other, Hq. }
  assert (Hdesc : JsString.includes (outputDir env) "node_modules/@types" = true ->
                  is_Some (first !! packageJsonPathOf env)).
  { intros Hinc. rewrite Hpj by (apply not_eq_sym, index_neq_packageJson).
    rewrite withPackageJson_at, Hinc.
    rewrite !lookup_insert_ne
      by (apply outFile_neq_packageJson || apply outFile_neq_template).
    destruct (fs !! packageJsonPathOf env) eqn:E; [eauto|]. apply Hok; auto. }
  destruct (run_success env p cfg first text typing' Hp Hc Hskip2 Hemitted2 Hrw)
    as (Hs & _ & Hsecond).
  { intros Hinc Hnone. destruct (Hdesc Hinc) as [c Hc']. congruence. }
  split; [exact Hs|]. rewrite Hsecond.
  rewrite (insert_id first _ _ Hout).
  assert (Hsame : withPackageJson env first = first).
  { unfold withPackageJson.
    destruct (JsString.includes (outputDir env) "node_modules/@types") eqn:Hinc;
      [|reflexivity].
    destruct (Hdesc eq_refl) as [c ->]. reflexivity. }
  rewrite Hsame. unfold withIndexLine.
  assert (Hidx : exists c, first !! indexPathOf env = Some c
                           /\ JsString.includes c (importStatementOf cfg) = true).
  { rewrite Hfirst, withIndexLine_at. eexists. split; [reflexivity|].
    destruct (withPackageJson env _ !! indexPathOf env) as [c|].
    - destruct (JsString.includes c (importStatementOf cfg)) eqn:E;
        [exact E | apply includes_mid].
    - apply (includes_mid ""). }
  destruct Hidx as (c & -> & ->). reflexivity.
Qed.

(** X14: when the output directory is under the shared type
    declarations, there is no package descriptor and the bundled template
    is missing, the run ends with status 1 and the exception on the error
    channel after the declaration file has been written: the rewritten text
    stays in place, the index is not updated and no other file changes. *)
Theorem missing_template_fails_after_write (env : Env) (p : string) (cfg : Config)
    (fs : gmap string string) (text typing' : string) :
  findFederationConfig (cwd env) "./" (rootListing env) = Some p ->
  requireConfig env p = Some cfg ->
  emitSkipped (emit (compileFiles cfg) (outFileOf env cfg) (delete (outFileOf env cfg) fs))
  = false ->
  emitted (emit (compileFiles cfg) (outFileOf env cfg) (delete (outFileOf env cfg) fs))
  = Some text ->
  rewriteTyping regexReplace cfg text = inr typing' ->
  JsString.includes (outputDir env) "node_modules/@types" = true ->
  fs !! packageJsonPathOf env = None ->
  fs !! templatePathOf env = None ->
  status (run emit regexReplace env fs) = 1
  /\ stderr (run emit regexReplace env fs)
     = ["ERROR: " ++ showExn (ENOENT (templatePathOf env))]
  /\ finalFiles (run emit regexReplace env fs) !! outFileOf env cfg = Some typing'
  /\ forall q, q <> outFileOf env cfg ->
       finalFiles (run emit regexReplace env fs) !! q = fs !! q.
Proof.
  intros Hp Hc Hskip Hemitted Hrw Hinc Hpj Ht.
  remember (run emit regexReplace env fs) as result eqn:Hrun. unfold run in Hrun.
  rewrite (script_loaded _ _ env p cfg _ Hp Hc) in Hrun. unfold tryCatch in Hrun.
  rewrite tryBody_emit in Hrun. cbn [initial files out err] in Hrun.
  rewrite (afterEmit_rewritten regexReplace env cfg _ _ text typing' Hskip) in Hrun;
    [|cbn [files]; rewrite emittedFiles_outFile; exact Hemitted | exact Hrw].
  cbn [files out err] in Hrun. unfold bind at 1 in Hrun.
  match type of Hrun with
  | context [writePackageJson env ?S] =>
      destruct (writePackageJson_thrown env S Hinc) as (s4 & Hw & He4 & Hf4)
  end.
  { cbn [files]. rewrite rewritten_other; [exact Hpj|].
    apply not_eq_sym, outFile_neq_packageJson. }
  { cbn [files]. rewrite rewritten_other; [exact Ht|].
    apply not_eq_sym, outFile_neq_template. }
  rewrite Hw in Hrun. cbn [files err] in He4, Hf4. cbn in Hrun. subst result.
  cbn [status stderr finalFiles]. rewrite He4, Hf4.
  split; [reflexivity|]. split; [reflexivity|]. split.
  - apply lookup_insert_eq.
  - intros q Hq. apply rewritten_other, Hq.
Qed.

(** X15: when the rewriter throws, the run ends with status 1 and the
    exception on the error channel; the declaration file holds the text of
    the engine as it was emitted, and no other file changes. *)
Theorem rewrite_exception_exit_1 (env : Env) (p : string) (cfg : Config)
    (fs : gmap string string) (text : string) (e : exn) :
  findFederationConfig (cwd env) "./" (rootListing env) = Some p ->
  requireConfig env p = Some cfg ->
  emitSkipped (emit (compileFiles cfg) (outFileOf env cfg) (delete (outFileOf env cfg) fs))
  = false ->
  emitted (emit (compileFiles cfg) (outFileOf env cfg) (delete (outFileOf env cfg) fs))
  = Some text ->
  rewriteTyping regexReplace cfg text = inl e ->
  status (run emit regexReplace env fs) = 1
  /\ stderr (run emit regexReplace env fs) = ["ERROR: " ++ showExn e]
  /\ finalFiles (run emit regexReplace env fs) !! outFileOf env cfg = Some text
  /\ forall q, q <> outFileOf env cfg ->
       finalFiles (run emit regexReplace env fs) !! q = fs !! q.
Proof.
  intros Hp Hc Hskip Hemitted Hrw. unfold run.
  rewrite (script_loaded _ _ env p cfg _ Hp Hc). unfold tryCatch.
  rewrite tryBody_emit. cbn [initial files out err].
  rewrite (afterEmit_rewrite_thrown regexReplace env cfg _ _ text e Hskip);
    [|cbn [files]; rewrite emittedFiles_outFile; exact Hemitted | exact Hrw].
  cbn. split; [reflexivity|]. split; [reflexivity|]. split.
  - rewrite emittedFiles_outFile. exact Hemitted.
  - intros q Hq. apply emittedFiles_other, Hq.
Qed.

(** X16: when the manifest that was found cannot be loaded, the
    exception is not caught: the run ends with status 1 after the line that
    names the manifest, without the ERROR prefix on the error channel, and
    no file is touched. *)
Theorem manifest_load_failure (env : Env) (p : string) (fs : gmap string string) :
  findFederationConfig (cwd env) "./" (rootListing env) = Some p ->
  requireConfig env p = None ->
  status (run emit regexReplace env fs) = 1
  /\ stdout (run emit regexReplace env fs) = ["Using config file: " ++ p]
  /\ stderr (run emit regexReplace env fs) = [showExn (ModuleNotFound p)]
  /\ finalFiles (run emit regexReplace env fs) = fs.
Proof.
  intros Hp Hc. unfold run, script. rewrite Hp. unfold bind, consoleLog.
  rewrite Hc. cbn. repeat split; reflexivity.
Qed.

(** X17: a run writes to three paths at most, the declaration file, the
    package descriptor and the index; every other file is after the run
    what it was before, however the run ends. *)
Theorem only_artifacts_written (env : Env) (fs : gmap string string) (q : string) :
  (forall p cfg,
      findFederationConfig (cwd env) "./" (rootListing env) = Some p ->
      requireConfig env p = Some cfg ->
      q <> outFileOf env cfg) ->
  q <> packageJsonPathOf env ->
  q <> indexPathOf env ->
  finalFiles (run emit regexReplace env fs) !! q = fs !! q.
Proof.
  intros Hout Hpj Hidx.
  apply (run_preserves (fun fs' => fs' !! q = fs !! q)); [|reflexivity].
  apply preserves_script_loaded. intros p cfg Hp Hc. specialize (Hout p cfg Hp Hc).
  apply preserves_tryBody.
  - intros fs' H. rewrite lookup_delete_ne by congruence. exact H.
  - intros fs' text H. rewrite lookup_insert_ne by congruence. exact H.
  - apply preserves_writePackageJson. intros fs' c _ _ _ H.
    rewrite lookup_insert_ne by congruence. exact H.
  - apply preserves_updateIndex. intros fs' c H.
    rewrite lookup_insert_ne by congruence. exact H.
Qed.

End Outcomes.

Lemma includes_app_l (s x sub : string) :
  JsString.includes s sub = true -> JsString.includes (s ++ x) sub = true.
Proof.
  intros H. apply includes_split in H as (a & c & ->).
  rewrite !app_assoc_s. apply includes_mid.
Qed.

(** X18: the index accumulates: the index step keeps the former
    contents as the beginning of the new ones, and after the steps for two
    manifests, in either order, the index holds the lines of both. *)
Theorem index_accumulates (indexPath first second : string) (s : State) :
  let s1 := snd (updateIndex indexPath first s) in
  let s2 := snd (updateIndex indexPath second s1) in
  (forall contents,
      files s !! indexPath = Some contents ->
      exists added, files s1 !! indexPath = Some (contents ++ added))
  /\ exists contents,
       files s2 !! indexPath = Some contents
       /\ JsString.includes contents first = true
       /\ JsString.includes contents second = true.
Proof.
  intros s1 s2. split.
  - intros contents H. subst s1. rewrite updateIndex_files, H.
    destruct (JsString.includes contents first).
    + exists "". rewrite app_empty_r. exact H.
    + exists (first ++ nl). apply lookup_insert_eq.
  - destruct (updateIndex_includes indexPath first s) as (c1 & Hc1 & Hi1).
    fold s1 in Hc1. subst s2. rewrite updateIndex_files, Hc1.
    destruct (JsString.includes c1 second) eqn:Hi2.
    + exists c1. auto.
    + exists (c1 ++ second ++ nl). rewrite lookup_insert_eq.
      split; [reflexivity|]. split; [apply includes_app_l, Hi1 | apply includes_mid].
Qed.


(** ** The further properties on the sample inputs *)

Lemma diagnostics_reported_witness :
  exists more,
    stdout (run Cases.emitNoisy Sample.regexReplace Sample.env Sample.fs0)
    = "Using config file: /p/src/federation.config.json"
      :: "TS Error 2307 : Cannot find module."
      :: "TS Error 7016 : Could not find a declaration file."
      :: more.
Proof.
  destruct (diagnostics_reported Cases.emitNoisy Sample.regexReplace Sample.env
              Sample.manifestPath Sample.cfg Sample.fs0 eq_refl eq_refl) as [more H].
  exists more. exact H.
Defined.

Lemma successful_run_witness :
  status (run Sample.emitBlob Sample.regexReplace Sample.env Sample.fs0) = 0
  /\ finalFiles (run Sample.emitBlob Sample.regexReplace Sample.env Sample.fs0)
       !! Sample.outFile = Some Cases.rewritten
  /\ finalFiles (run Sample.emitBlob Sample.regexReplace Sample.env Sample.fs0)
       !! Sample.indexFile = Some ("export * from './app';" ++ nl).
Proof.
  destruct (successful_run Sample.emitBlob Sample.regexReplace Sample.env
              Sample.manifestPath Sample.cfg Sample.fs0 Sample.blob Cases.rewritten)
    as (Hs & _ & Hout & Hidx & _); try reflexivity.
  - intros _ H. discriminate H.
  - discriminate.
  - split; [exact Hs|]. split; [exact Hout | exact Hidx].
Defined.

Lemma missing_template_fails_after_write_witness :
  status (run Sample.emitBlob Sample.regexReplace Sample.env Cases.fsBare) = 1
  /\ finalFiles (run Sample.emitBlob Sample.regexReplace Sample.env Cases.fsBare)
       !! Sample.outFile = Some Cases.rewritten
  /\ finalFiles (run Sample.emitBlob Sample.regexReplace Sample.env Cases.fsBare)
       !! Sample.indexFile = None.
Proof.
  destruct (missing_template_fails_after_write Sample.emitBlob Sample.regexReplace
              Sample.env Sample.manifestPath Sample.cfg Cases.fsBare Sample.blob
              Cases.rewritten)
    as (Hs & _ & Hout & Hother); try reflexivity.
  split; [exact Hs|]. split; [exact Hout|].
  rewrite (Hother Sample.indexFile); [reflexivity | discriminate].
Defined.

Lemma rewrite_exception_exit_1_witness :
  status (run Cases.emitBad Sample.regexReplace Sample.env Sample.fs0) = 1
  /\ finalFiles (run Cases.emitBad Sample.regexReplace Sample.env Sample.fs0)
       !! Sample.outFile = Some Cases.badBlob.
Proof.
  destruct (rewrite_exception_exit_1 Cases.emitBad Sample.regexReplace Sample.env
              Sample.manifestPath Sample.cfg Sample.fs0 Cases.badBlob
              (SyntaxError (Regex.quoted "lib/c++/Vec")))
    as (Hs & _ & Hout & _); try reflexivity.
  split; [exact Hs | exact Hout].
Defined.

Lemma manifest_load_failure_witness :
  status (run Sample.emitBlob Sample.regexReplace Cases.brokenEnv Sample.fs0) = 1
  /\ finalFiles (run Sample.emitBlob Sample.regexReplace Cases.brokenEnv Sample.fs0)
     = Sample.fs0.
Proof.
  destruct (manifest_load_failure Sample.emitBlob Sample.regexReplace Cases.brokenEnv
              Sample.manifestPath Sample.fs0 eq_refl eq_refl) as (Hs & _ & _ & Hf).
  split; [exact Hs | exact Hf].
Defined.

Lemma only_artifacts_written_witness :
  finalFiles (run Sample.emitBlob Sample.regexReplace Sample.env Sample.fs0)
    !! Sample.template = Some "{}".
Proof.
  rewrite (only_artifacts_written Sample.emitBlob Sample.regexReplace Sample.env
             Sample.fs0 Sample.template).
  - reflexivity.
  - intros p cfg _ Hc. injection Hc as <-. discriminate.
  - discriminate.
  - discriminate.
Defined.

Lemma index_accumulates_witness :
  exists contents,
    files (snd (updateIndex Sample.indexFile "export * from './lib';"
                  (snd (updateIndex Sample.indexFile "export * from './app';"
                          (initial Sample.fs0)))))
      !! Sample.indexFile = Some contents
    /\ JsString.includes contents "export * from './app';" = true
    /\ JsString.includes contents "export * from './lib';" = true.
Proof.
  destruct (index_accumulates Sample.indexFile "export * from './app';"
              "export * from './lib';" (initial Sample.fs0)) as [_ H].
  exact H.
Defined.

Lemma second_run_changes_nothing_witness :
  finalFiles (run Sample.emitBlob Sample.regexReplace Sample.env
                (finalFiles (run Sample.emitBlob Sample.regexReplace Sample.env Sample.fs0)))
  = finalFiles (run Sample.emitBlob Sample.regexReplace Sample.env Sample.fs0).
Proof.
  refine (proj2 (second_run_changes_nothing Sample.emitBlob Sample.regexReplace Sample.env
                   Sample.manifestPath Sample.cfg Sample.fs0 Sample.blob Cases.rewritten
                   eq_refl eq_refl eq_refl eq_refl eq_refl _ _ eq_refl eq_refl)).
  - intros _ H. discriminate H.
  - discriminate.
Defined.


(** ** Exit status and error channel *)

Lemma quiet_same {A} (m : M A) :
  (forall s, err (snd (m s)) = err s) ->
  (forall s c, fst (m s) <> Exited c) ->
  quiet m.
Proof. intros He Hx s. split; [apply He | intros c H; destruct (Hx s c H)]. Qed.

Lemma quiet_ret {A} (a : A) : quiet (ret a).
Proof. apply quiet_same; [reflexivity | discriminate]. Qed.

Lemma quiet_log (line : string) : quiet (consoleLog line).
Proof. apply quiet_same; [reflexivity | discriminate]. Qed.

Lemma quiet_exists (p : string) : quiet (existsSync p).
Proof. apply quiet_same; [reflexivity | discriminate]. Qed.

Lemma quiet_setFiles (f : gmap string string -> gmap string string) : quiet (setFiles f).
Proof. apply quiet_same; [reflexivity | discriminate]. Qed.

Lemma quiet_read (p : string) : quiet (readFileSync p).
Proof.
  apply quiet_same; intros s; unfold readFileSync; destruct (files s !! p);
    (reflexivity || discriminate).
Qed.

Lemma quiet_liftE {A} (r : exn + A) : quiet (liftE r).
Proof. apply quiet_same; intros s; destruct r; (reflexivity || discriminate). Qed.

Lemma quiet_bind {A B} (m : M A) (k : A -> M B) :
  quiet m -> (forall a, quiet (k a)) -> quiet (bind m k).
Proof.
  intros Hm Hk s. unfold bind. destruct (Hm s) as [He Hx].
  destruct (m s) as [[a|c|e] s']; simpl in He, Hx.
  - destruct (Hk a s') as [He' Hx']. split; [congruence | exact Hx'].
  - split; [exact He | intros c0 [= <-]; apply (Hx c eq_refl)].
  - split; [exact He | discriminate].
Qed.

Lemma quiet_writePackageJson (env : Env) : quiet (writePackageJson env).
Proof.
  unfold writePackageJson. destruct (JsString.includes _ _); [|apply quiet_log].
  apply quiet_bind; [apply quiet_exists | intros [|]; cbn [negb]].
  - apply quiet_log.
  - apply quiet_bind; [apply quiet_log | intros _].
    apply quiet_bind; [apply quiet_read | intros c; apply quiet_setFiles].
Qed.

Lemma quiet_updateIndex (indexPath importStatement : string) :
  quiet (updateIndex indexPath importStatement).
Proof.
  unfold updateIndex.
  apply quiet_bind; [apply quiet_exists | intros [|]; cbn [negb]].
  - apply quiet_bind; [apply quiet_log | intros _].
    apply quiet_bind; [apply quiet_read | intros contents].
    destruct (negb _); [apply quiet_setFiles | apply quiet_ret].
  - apply quiet_bind; [apply quiet_log | intros _; apply quiet_setFiles].
Qed.

Section Status.

Variable emit : list string -> string -> gmap string string -> EmitResult.
Variable regexReplace : string -> string -> string -> option string.

Lemma quiet_afterEmit (env : Env) (cfg : Config) (r : EmitResult) :
  quiet (afterEmit regexReplace env cfg r).
Proof.
  unfold afterEmit.
  apply quiet_bind; [|intros _].
  { destruct (emitSkipped r); [|apply quiet_ret].
    intros s. split; [reflexivity | intros c [= <-]; reflexivity]. }
  apply quiet_bind; [apply quiet_read | intros typing].
  apply quiet_bind; [apply quiet_liftE | intros typing'].
  apply quiet_bind; [apply quiet_log | intros _].
  apply quiet_bind; [apply quiet_setFiles | intros _].
  apply quiet_bind; [apply quiet_writePackageJson | intros _].
  apply quiet_bind; [apply quiet_updateIndex | intros _].
  apply quiet_log.
Qed.

(** X20: the exit status of a run is 0 or 1, and it is 0 exactly when
    nothing was written on the error channel; a run with status 0 has
    found and loaded a manifest. *)
Theorem exit_status_and_error_channel (env : Env) (fs : gmap string string) :
  (status (run emit regexReplace env fs) = 0 \/ status (run emit regexReplace env fs) = 1)
  /\ (status (run emit regexReplace env fs) = 0
      <-> stderr (run emit regexReplace env fs) = [])
  /\ (status (run emit regexReplace env fs) = 0 ->
      exists p cfg,
        findFederationConfig (cwd env) "./" (rootListing env) = Some p
        /\ requireConfig env p = Some cfg).
Proof.
  remember (run emit regexReplace env fs) as result eqn:Hrun. unfold run in Hrun.
  destruct (findFederationConfig (cwd env) "./" (rootListing env)) as [p|] eqn:Hp.
  - destruct (requireConfig env p) as [cfg|] eqn:Hc.
    + rewrite (script_loaded _ _ env p cfg _ Hp Hc) in Hrun. unfold tryCatch in Hrun.
      rewrite tryBody_emit in Hrun. cbn [initial files out err] in Hrun.
      match type of Hrun with
      | context [afterEmit regexReplace env cfg ?r ?S] =>
          destruct (quiet_afterEmit env cfg r S) as [He Hx]
      end.
      destruct (afterEmit _ _ _ _ _) as [[a|c|e] s']; cbn in Hrun, He, Hx; subst result;
        cbn [status stderr].
      * split; [auto|]. split; [tauto | eauto].
      * rewrite (Hx c eq_refl). split; [auto|]. split; [tauto | eauto].
      * split; [auto|]. split; [|discriminate].
        split; [discriminate|]. rewrite He. discriminate.
    + unfold script in Hrun. rewrite Hp in Hrun. unfold bind, consoleLog in Hrun.
      rewrite Hc in Hrun. cbn in Hrun. subst result. cbn.
      split; [auto|]. split; [split; discriminate | discriminate].
  - unfold script in Hrun. rewrite Hp in Hrun. cbn in Hrun. subst result. cbn.
    split; [auto|]. split; [split; discriminate | discriminate].
Qed.

End Status.

Lemma exit_status_and_error_channel_witness :
  status (run Sample.emitBlob Sample.regexReplace Sample.env Sample.fs0) = 0
  /\ stderr (run Sample.emitBlob Sample.regexReplace Sample.env Sample.fs0) = [].
Proof.
  destruct (exit_status_and_error_channel Sample.emitBlob Sample.regexReplace
              Sample.env Sample.fs0) as (_ & Hiff & _).
  split; [reflexivity | apply Hiff; reflexivity].
Defined.
